(** * smallcap: the training driver [train.py]

    A shallow embedding of the training driver of the SmallCap captioning
    model and the properties of its glue code: registration and loading of
    the pretrained components, configuration of the model, freezing of
    parameters, construction of the dataset and of the trainer.

    The driver is a sequence of calls into libraries (transformers, torch,
    pandas, [src.utils]).  Those calls are modelled as events of a trace;
    what they answer is given by a record of library behaviours over which
    every statement is quantified.  The driver's own data (arguments,
    configuration fields, [requires_grad] flags, keyword arguments) is
    modelled concretely. *)

From Stdlib Require Import QArith Qround Qabs Ascii.
From stdpp Require Import base option list strings pretty.

Local Open Scope Z_scope.
Local Open Scope string_scope.

(** ** Python values used by the driver *)

(** A Python [float]: a finite double, given by the rational it is equal
    to, an infinity or a NaN. *)
Inductive pyfloat : Type :=
  | FFinite (q : Q)
  | FInf (negative : bool)
  | FNaN.

(** A Python number: [int] or [float]. [--attention_size] is declared with
    [type=float] but its default is the [int] 7. *)
Inductive pynum : Type :=
  | PyInt (z : Z)
  | PyFloat (f : pyfloat).

(** [a == b] on Python numbers: numeric comparison across [int] and
    [float]; a NaN is equal to nothing. *)
Definition float_eqb (a b : pyfloat) : bool :=
  match a, b with
  | FFinite x, FFinite y => Qeq_bool x y
  | FInf s, FInf t => Bool.eqb s t
  | _, _ => false
  end.

Definition num_eqb (a b : pynum) : bool :=
  match a, b with
  | PyInt x, PyInt y => Z.eqb x y
  | PyInt x, PyFloat g => float_eqb (FFinite (inject_Z x)) g
  | PyFloat f, PyInt y => float_eqb f (FFinite (inject_Z y))
  | PyFloat f, PyFloat g => float_eqb f g
  end.

(** The rational value of a finite number. *)
Definition num_value (a : pynum) : option Q :=
  match a with
  | PyInt z => Some (inject_Z z)
  | PyFloat (FFinite q) => Some q
  | PyFloat _ => None
  end.

(** ** binary64 *)

(** [floor (log2 a)] for a positive [a]. *)
Definition log2_floor (a : Q) : Z :=
  let k := Z.log2 (Qnum a) - Z.log2 (Z.pos (Qden a)) in
  if Qle_bool (2 ^ k) a then k else k - 1.

(** The distance between the doubles around a positive [a]. *)
Definition ulp (a : Q) : Q := (2 ^ (Z.max (log2_floor a) (-1022) - 52))%Q.

Definition round_half_even (r : Q) : Z :=
  let f := Qfloor r in
  match (r - inject_Z f ?= 1 # 2)%Q with
  | Lt => f
  | Gt => f + 1
  | Eq => if Z.even f then f else f + 1
  end.

(** The double nearest to [q], ties to even; an infinity beyond the
    largest double. *)
Definition round_double (q : Q) : pyfloat :=
  if Qeq_bool q 0 then FFinite 0
  else
    let a := Qabs q in
    let v := Qred (inject_Z (round_half_even (a / ulp a)) * ulp a) in
    if Qle_bool (2 ^ 1024) v then FInf (negb (Qle_bool 0 q))
    else FFinite (if Qle_bool 0 q then v else Qred (- v)).

(** ** [repr] of a float *)

(** The [p] with [10^(p-1) <= a < 10^p], for a positive [a]. *)
Fixpoint decimal_point_up (fuel : nat) (a : Q) (p : Z) : Z :=
  match fuel with
  | O => p
  | S fuel' => if Qle_bool (10 ^ p) a then decimal_point_up fuel' a (p + 1) else p
  end.

Fixpoint decimal_point_down (fuel : nat) (a : Q) (p : Z) : Z :=
  match fuel with
  | O => p
  | S fuel' => if Qle_bool (10 ^ (p - 1)) a then p else decimal_point_down fuel' a (p - 1)
  end.

Definition decimal_point (a : Q) : Z :=
  decimal_point_down 400 a (decimal_point_up 400 a 0).

(** Whether the decimal [v] reads back as the double whose rounding
    interval is from [lo] to [hi]; the ends count when the mantissa is
    even. *)
Definition reads_back (even : bool) (lo hi v : Q) : bool :=
  if even then Qle_bool lo v && Qle_bool v hi
  else negb (Qle_bool v lo) && negb (Qle_bool hi v).

(** The shortest decimal [c * 10^k] that reads back as [a], the nearest
    to [a] among those of that length: with [n] digits, then [n+1], ... *)
Fixpoint shortest (fuel : nat) (n : Z) (even : bool) (lo hi a : Q) (p : Z) : Z * Z :=
  let s := (10 ^ (p - n))%Q in
  let c := Qfloor (a / s) in
  match fuel with
  | O => (c, p - n)
  | S fuel' =>
      let v0 := (inject_Z c * s)%Q in
      let v1 := (inject_Z (c + 1) * s)%Q in
      match reads_back even lo hi v0, reads_back even lo hi v1 with
      | true, true => if Qle_bool (a - v0) (v1 - a) then (c, p - n) else (c + 1, p - n)
      | true, false => (c, p - n)
      | false, true => (c + 1, p - n)
      | false, false => shortest fuel' (n + 1) even lo hi a p
      end
  end.

Fixpoint strip_zeros (s : string) : string :=
  match s with
  | EmptyString => EmptyString
  | String c s' =>
      match strip_zeros s' with
      | EmptyString => if Ascii.eqb c "0" then EmptyString else String c EmptyString
      | r => String c r
      end
  end.

Fixpoint zeros (n : nat) : string :=
  match n with
  | O => ""
  | S n' => String "0" (zeros n')
  end.

(** The digits and the position of the decimal point of the shortest
    decimal that reads back as the positive double [a]. *)
Definition shortest_digits (a : Q) : string * Z :=
  let e := log2_floor a in
  let u := ulp a in
  let lower := if Qeq_bool a (2 ^ e) && Z.ltb (-1022) e then (u / 4)%Q else (u / 2)%Q in
  let '(c, k) :=
    shortest 17 1 (Z.even (Qfloor (a / u))) (a - lower) (a + u / 2) a (decimal_point a) in
  (strip_zeros (pretty c), k + Z.of_nat (String.length (pretty c))).

(** [float_repr_style] of CPython: exponent form from [1e16] on and below
    [1e-4], a fixed point otherwise, with [.0] after an integer. *)
Definition format_positive (a : Q) : string :=
  let '(ds, decpt) := shortest_digits a in
  let len := Z.of_nat (String.length ds) in
  if Z.leb decpt (-4) || Z.ltb 16 decpt then
    let e := decpt - 1 in
    String.substring 0 1 ds
    +:+ (if Z.ltb 1 len then "." +:+ String.substring 1 (String.length ds - 1) ds else "")
    +:+ "e" +:+ (if Z.ltb e 0 then "-" else "+")
    +:+ (if Z.ltb (Z.abs e) 10 then "0" else "") +:+ pretty (Z.abs e)
  else if Z.leb decpt 0 then
    "0." +:+ zeros (Z.to_nat (- decpt)) +:+ ds
  else if Z.leb len decpt then
    ds +:+ zeros (Z.to_nat (decpt - len)) +:+ ".0"
  else
    String.substring 0 (Z.to_nat decpt) ds +:+ "."
    +:+ String.substring (Z.to_nat decpt) (String.length ds - Z.to_nat decpt) ds.

(** [repr(x)] of a float, which is also ['{}'.format(x)]. A zero is
    printed as [0.0]: its sign is not kept. *)
Definition format_float (f : pyfloat) : string :=
  match f with
  | FNaN => "nan"
  | FInf negative => if negative then "-inf" else "inf"
  | FFinite q =>
      let q := Qred q in
      if Qeq_bool q 0 then "0.0"
      else if Qle_bool 0 q then format_positive q
      else "-" +:+ format_positive (Qred (- q))
  end.

(** ['{}'.format(n)] for a number: decimal digits for an [int], [repr]
    for a [float]. A numpy scalar is written as the Python number of its
    value. *)
Definition format_num (n : pynum) : string :=
  match n with
  | PyInt z => pretty z
  | PyFloat f => format_float f
  end.

(** ** numpy scalars *)

(** An [np.int64] is a [PyInt] within the 64 bits, an [np.float64] a
    [PyFloat]. Integer arithmetic wraps around. *)
Definition wrap64 (z : Z) : Z := (z + 2 ^ 63) mod 2 ^ 64 - 2 ^ 63.

Definition to_double (n : pynum) : pyfloat :=
  match n with
  | PyInt z => round_double (inject_Z z)
  | PyFloat f => f
  end.

Definition float_add (f g : pyfloat) : pyfloat :=
  match f, g with
  | FNaN, _ | _, FNaN => FNaN
  | FInf s, FInf t => if Bool.eqb s t then FInf s else FNaN
  | FInf s, _ | _, FInf s => FInf s
  | FFinite x, FFinite y => round_double (x + y)
  end.

(** [a + b]: two integers stay an [np.int64]; with a float the sum is an
    [np.float64]. *)
Definition np_add (a b : pynum) : pynum :=
  match a, b with
  | PyInt x, PyInt y => PyInt (wrap64 (x + y))
  | _, _ => PyFloat (float_add (to_double a) (to_double b))
  end.

(** [np.prod(size)] for a [torch.Size]: an [np.int64], and the float
    [1.0] for the empty size of a 0-dimensional tensor. *)
Definition np_prod (size : list Z) : pynum :=
  match size with
  | [] => PyFloat (FFinite 1)
  | _ => PyInt (wrap64 (foldr Z.mul 1 size))
  end.

(** [sum(xs)]: from the [int] 0, adding from the left. *)
Definition py_sum (xs : list pynum) : pynum := fold_left np_add xs (PyInt 0).

(** [sub in s] on Python strings. *)
Fixpoint contains (sub s : string) : bool :=
  String.prefix sub s ||
  match s with
  | EmptyString => false
  | String _ s' => contains sub s'
  end.

(** [s.startswith(p)] and [s.endswith(p)] for a one-character [p]. *)
Definition startswith (s : string) (c : Ascii.ascii) : bool :=
  match s with
  | String a _ => Ascii.eqb a c
  | EmptyString => false
  end.

Fixpoint endswith (s : string) (c : Ascii.ascii) : bool :=
  match s with
  | EmptyString => false
  | String a EmptyString => Ascii.eqb a c
  | String _ s' => endswith s' c
  end.

(** [os.path.join(a, b)] of [posixpath]: an absolute [b] replaces [a];
    otherwise [b] is appended, after a separator unless [a] is empty or
    ends with one. *)
Definition path_join (a b : string) : string :=
  if startswith b "/"%char then b
  else if String.eqb a "" || endswith a "/"%char then a +:+ b
  else a +:+ "/" +:+ b.

(** Exceptions: the [KeyError] of a dict lookup of the driver, with the
    missing key, and whatever a library call raises. *)
Inductive pykey : Type :=
  | KNum (n : pynum)
  | KStr (s : string).

Inductive exn : Type :=
  | KeyError (key : pykey)
  | LibraryError (msg : string).

Inductive result (A : Type) : Type :=
  | Ok (a : A)
  | Raise (e : exn).
Arguments Ok {A} a.
Arguments Raise {A} e.

(** ** Module constants *)

Definition PARAMS2REDUCE_FACTOR : list (pynum * Z) :=
  [ (PyInt 28, 1); (PyInt 14, 2); (PyInt 7, 4);
    (PyFloat (FFinite (7 # 2)), 8); (PyFloat (FFinite (7 # 4)), 16) ].
Definition PAD_TOKEN : string := "!".
Definition EOS_TOKEN : string := ".".
Definition CAPTION_LENGTH : Z := 25.

(** [d[key]] on a dict with numeric keys: the value of the entry whose
    key is equal to [key], [KeyError] if there is none. *)
Fixpoint dict_get (d : list (pynum * Z)) (key : pynum) : option Z :=
  match d with
  | [] => None
  | (k0, v) :: d' => if num_eqb k0 key then Some v else dict_get d' key
  end.

Definition getitem (d : list (pynum * Z)) (key : pynum) : result Z :=
  match dict_get d key with
  | Some v => Ok v
  | None => Raise (KeyError (KNum key))
  end.

(** [d[key]] on a dict with string keys, kept as an association list. *)
Fixpoint dict_get_str {V : Type} (d : list (string * V)) (key : string) : option V :=
  match d with
  | [] => None
  | (k0, v) :: d' => if String.eqb k0 key then Some v else dict_get_str d' key
  end.

Definition getitem_str {V : Type} (d : list (string * V)) (key : string) : result V :=
  match dict_get_str d key with
  | Some v => Ok v
  | None => Raise (KeyError (KStr key))
  end.

(** ** The command line: [argparse.Namespace] of the parser of [__main__] *)

(** A value of the namespace. *)
Inductive pyval : Type :=
  | VStr (s : string)
  | VNum (n : pynum)
  | VBool (b : bool).

Module Args.
Record t : Type := mk {
  features_dir : string;
  annotations_path : string;
  captions_path : string;
  experiments_dir : string;
  encoder_name : string;
  decoder_name : string;
  attention_size : pynum;
  train_decoder : bool;
  disable_rag : bool;
  k : Z;
  retrieval_encoder : string;
  template_path : string;
  n_epochs : Z;
  lr : pynum;
  batch_size : Z;
  gradient_steps : Z;
  ablation_visual : bool
}.

(** The namespace when no option is given (the [default=] of every
    [add_argument]); [1e-4] is the double of that name,
    [7378697629483821 / 2^66]. *)
Definition default : t := {|
  features_dir := "/kaggle/working/features/";
  annotations_path := "/kaggle/input/karpathy-splits/dataset_coco.json";
  captions_path := "/kaggle/working/retrieved_caps_resnet50x64.json";
  experiments_dir := "/kaggle/working/";
  encoder_name := "openai/clip-vit-base-patch32";
  decoder_name := "gpt2";
  attention_size := PyInt 7;
  train_decoder := false;
  disable_rag := false;
  k := 4;
  retrieval_encoder := "RN50x64";
  template_path := "/kaggle/working/smallcap/src/template.txt";
  n_epochs := 10;
  lr := PyFloat (FFinite (7378697629483821 # 73786976294838206464));
  batch_size := 64;
  gradient_steps := 1;
  ablation_visual := false
|}.

(** [vars(args)]: the attributes by name, in the order of the parser. *)
Definition vars (a : t) : list (string * pyval) :=
  [ ("features_dir", VStr (features_dir a));
    ("annotations_path", VStr (annotations_path a));
    ("captions_path", VStr (captions_path a));
    ("experiments_dir", VStr (experiments_dir a));
    ("encoder_name", VStr (encoder_name a));
    ("decoder_name", VStr (decoder_name a));
    ("attention_size", VNum (attention_size a));
    ("train_decoder", VBool (train_decoder a));
    ("disable_rag", VBool (disable_rag a));
    ("k", VNum (PyInt (k a)));
    ("retrieval_encoder", VStr (retrieval_encoder a));
    ("template_path", VStr (template_path a));
    ("n_epochs", VNum (PyInt (n_epochs a)));
    ("lr", VNum (lr a));
    ("batch_size", VNum (PyInt (batch_size a)));
    ("gradient_steps", VNum (PyInt (gradient_steps a)));
    ("ablation_visual", VBool (ablation_visual a)) ].

(** [args.experiments_dir = d]. *)
Definition set_experiments_dir (d : string) (a : t) : t :=
  mk (features_dir a) (annotations_path a) (captions_path a) d
     (encoder_name a) (decoder_name a) (attention_size a) (train_decoder a)
     (disable_rag a) (k a) (retrieval_encoder a) (template_path a)
     (n_epochs a) (lr a) (batch_size a) (gradient_steps a) (ablation_visual a).
End Args.

(** The [add_argument] calls of [__main__]: the option, how its value is
    read ([type=] or [action="store_true"]) and its default. *)
Module Parser.
Inductive kind : Type := type_str | type_int | type_float | store_true.

Record argument : Type := mk {
  option_string : string;
  value_kind : kind;
  default : pyval
}.

Definition arguments : list argument :=
  [ mk "--features_dir" type_str (VStr "/kaggle/working/features/");
    mk "--annotations_path" type_str
       (VStr "/kaggle/input/karpathy-splits/dataset_coco.json");
    mk "--captions_path" type_str
       (VStr "/kaggle/working/retrieved_caps_resnet50x64.json");
    mk "--experiments_dir" type_str (VStr "/kaggle/working/");
    mk "--encoder_name" type_str (VStr "openai/clip-vit-base-patch32");
    mk "--decoder_name" type_str (VStr "gpt2");
    mk "--attention_size" type_float (VNum (PyInt 7));
    mk "--train_decoder" store_true (VBool false);
    mk "--disable_rag" store_true (VBool false);
    mk "--k" type_int (VNum (PyInt 4));
    mk "--retrieval_encoder" type_str (VStr "RN50x64");
    mk "--template_path" type_str (VStr "/kaggle/working/smallcap/src/template.txt");
    mk "--n_epochs" type_int (VNum (PyInt 10));
    mk "--lr" type_float
       (VNum (PyFloat (FFinite (7378697629483821 # 73786976294838206464))));
    mk "--batch_size" type_int (VNum (PyInt 64));
    mk "--gradient_steps" type_int (VNum (PyInt 1));
    mk "--ablation_visual" store_true (VBool false) ].

(** The attribute an option is stored in: the option without its dashes. *)
Definition dest (a : argument) : string :=
  String.substring 2 (String.length (option_string a) - 2) (option_string a).

(** The namespace of a command line without options. *)
Definition defaults : list (string * pyval) :=
  map (fun a => (dest a, default a)) arguments.
End Parser.

(** ** Model, configuration and parameters *)

(** A [torch.nn.Parameter]: what the driver reads ([size()]) and what it
    writes ([requires_grad]). *)
Module Param.
Record t : Type := mk {
  size : list Z;
  requires_grad : bool
}.

(** [param.requires_grad = False]. *)
Definition freeze (p : t) : t := mk (size p) false.

(** [np.prod(p.size())]. *)
Definition numel (p : t) : pynum := np_prod (size p).
End Param.

(** [model.config.decoder]. *)
Module DecoderConfig.
Record t : Type := mk { vocab_size : Z }.
End DecoderConfig.

(** [model.config]: the attributes the driver reads or assigns. An
    attribute that is [None] or not set is [None]. *)
Module Config.
Record t : Type := mk {
  vocab_size : Z;
  decoder_start_token_id : option Z;
  pad_token_id : option Z;
  eos_token_id : option Z;
  k : option Z;
  retrieval_encoder : option string;
  max_length : Z;
  rag : bool;
  decoder : DecoderConfig.t
}.

Definition set_vocab_size (v : Z) (c : t) : t :=
  mk v (decoder_start_token_id c) (pad_token_id c) (eos_token_id c) (k c)
     (retrieval_encoder c) (max_length c) (rag c) (decoder c).
Definition set_decoder_start_token_id (v : option Z) (c : t) : t :=
  mk (vocab_size c) v (pad_token_id c) (eos_token_id c) (k c)
     (retrieval_encoder c) (max_length c) (rag c) (decoder c).
Definition set_pad_token_id (v : option Z) (c : t) : t :=
  mk (vocab_size c) (decoder_start_token_id c) v (eos_token_id c) (k c)
     (retrieval_encoder c) (max_length c) (rag c) (decoder c).
Definition set_eos_token_id (v : option Z) (c : t) : t :=
  mk (vocab_size c) (decoder_start_token_id c) (pad_token_id c) v (k c)
     (retrieval_encoder c) (max_length c) (rag c) (decoder c).
Definition set_k (v : option Z) (c : t) : t :=
  mk (vocab_size c) (decoder_start_token_id c) (pad_token_id c) (eos_token_id c) v
     (retrieval_encoder c) (max_length c) (rag c) (decoder c).
Definition set_retrieval_encoder (v : option string) (c : t) : t :=
  mk (vocab_size c) (decoder_start_token_id c) (pad_token_id c) (eos_token_id c) (k c)
     v (max_length c) (rag c) (decoder c).
Definition set_max_length (v : Z) (c : t) : t :=
  mk (vocab_size c) (decoder_start_token_id c) (pad_token_id c) (eos_token_id c) (k c)
     (retrieval_encoder c) v (rag c) (decoder c).
Definition set_rag (v : bool) (c : t) : t :=
  mk (vocab_size c) (decoder_start_token_id c) (pad_token_id c) (eos_token_id c) (k c)
     (retrieval_encoder c) (max_length c) v (decoder c).
End Config.

(** The [SmallCap] model object. [parameters] is the store of its tensors,
    in the order of [model.parameters()]; the encoder and the decoder refer
    to their tensors by position in it, so a tensor reached twice is one
    tensor. [encoder_parameters] are those of [model.encoder.parameters()],
    [decoder_named_parameters] those of [model.decoder.named_parameters()]
    with their names. *)
Module Model.
Record t : Type := mk {
  config : Config.t;
  parameters : list Param.t;
  encoder_parameters : list nat;
  decoder_named_parameters : list (string * nat)
}.

Definition set_config (c : Config.t) (m : t) : t :=
  mk c (parameters m) (encoder_parameters m) (decoder_named_parameters m).
Definition set_parameters (ps : list Param.t) (m : t) : t :=
  mk (config m) ps (encoder_parameters m) (decoder_named_parameters m).
End Model.

(** The tokenizer: its two special tokens the driver assigns, and its
    vocabulary lookup. *)
Module Tokenizer.
Record t : Type := mk {
  pad_token : option string;
  eos_token : option string;
  convert_tokens_to_ids : string -> option Z
}.

Definition set_pad_token (tok : string) (t0 : t) : t :=
  mk (Some tok) (eos_token t0) (convert_tokens_to_ids t0).
Definition set_eos_token (tok : string) (t0 : t) : t :=
  mk (pad_token t0) (Some tok) (convert_tokens_to_ids t0).

(** The properties [pad_token_id] and [eos_token_id]: [None] when the
    token is not set, its id otherwise. *)
Definition pad_token_id (t0 : t) : option Z :=
  pad_token t0 ≫= convert_tokens_to_ids t0.
Definition eos_token_id (t0 : t) : option Z :=
  eos_token t0 ≫= convert_tokens_to_ids t0.
End Tokenizer.

(** ** Objects of the libraries *)

(** Classes registered with the [Auto*] factories. *)
Inductive config_class : Type :=
  | ThisXGLMConfig | ThisOPTConfig | ThisGPT2Config | SmallCapConfig.
Inductive model_class : Type :=
  | ThisXGLMForCausalLM | ThisOPTForCausalLM | ThisGPT2LMHeadModel | SmallCap.

(** The feature extractor is used as a whole only: an object known by its
    reference. *)
Inductive FeatureExtractor : Type :=
  | FeatureExtractorRef (ref : N).

(** A row of the annotation table is not inspected by the driver; it is
    kept as text. [pd.DataFrame(rows)] wraps the rows. *)
Definition Row : Type := string.
Inductive DataFrame : Type :=
  | pd_DataFrame (rows : list Row).

(** Keyword arguments of [TrainDataset] and [AblationFeaturesDataset]. *)
Module DatasetArgs.
Record t : Type := mk {
  df : DataFrame;
  features_path : string;
  tokenizer : Tokenizer.t;
  rag : bool;
  template_path : string;
  k : Z;
  max_caption_length : Z
}.
End DatasetArgs.

(** A dataset object is the class applied to its arguments. *)
Inductive Dataset : Type :=
  | TrainDataset (kw : DatasetArgs.t)
  | AblationFeaturesDataset (kw : DatasetArgs.t).

Definition dataset_args (d : Dataset) : DatasetArgs.t :=
  match d with
  | TrainDataset kw | AblationFeaturesDataset kw => kw
  end.

(** Keyword arguments of [Seq2SeqTrainingArguments] given by [main]. *)
Module TrainingArguments.
Record t : Type := mk {
  num_train_epochs : Z;
  per_device_train_batch_size : Z;
  gradient_accumulation_steps : Z;
  learning_rate : pynum;
  fp16 : bool;
  save_strategy : string;
  save_total_limit : Z;
  logging_strategy : string;
  output_dir : string;
  overwrite_output_dir : bool
}.
End TrainingArguments.

Inductive DataCollator : Type :=
  | default_data_collator.

(** Keyword arguments of [Seq2SeqTrainer] given by [main]; a trainer object
    is the class applied to them. *)
Module Trainer.
Record t : Type := mk {
  model : Model.t;
  args : TrainingArguments.t;
  data_collator : option DataCollator;
  train_dataset : Dataset;
  tokenizer : FeatureExtractor
}.
End Trainer.

(** ** Calls into the libraries *)

(** One constructor per library entry point the driver calls, with the
    arguments of the call. *)
Inductive event : Type :=
  | AutoConfig_register (model_type : string) (c : config_class)
  | AutoModel_register (c : config_class) (m : model_class)
  | AutoModelForCausalLM_register (c : config_class) (m : model_class)
  | CLIPFeatureExtractor_from_pretrained (name : string)
  | AutoTokenizer_from_pretrained (name : string)
  | SmallCap_from_encoder_decoder_pretrained
      (encoder decoder : string) (cross_attention_reduce_factor : Z)
  | print (s : string)
  | load_data_for_training (annotations_path captions_path : string)
  | Dataset_init (d : Dataset)
  | Seq2SeqTrainingArguments (kw : TrainingArguments.t)
  | Seq2SeqTrainer (kw : Trainer.t)
  | Trainer_train (trainer : Trainer.t).

(** What the libraries answer. Within one run no entry point is called
    twice with the same arguments, so an answer is a function of the
    arguments. *)
Module Library.
Record t : Type := mk {
  register_config : string -> config_class -> result unit;
  register_model : config_class -> model_class -> result unit;
  register_causal_lm : config_class -> model_class -> result unit;
  feature_extractor_from_pretrained : string -> result FeatureExtractor;
  tokenizer_from_pretrained : string -> result Tokenizer.t;
  from_encoder_decoder_pretrained : string -> string -> Z -> result Model.t;
  load_data : string -> string -> result (list (string * list Row));
  dataset_init : Dataset -> result unit;
  training_arguments_init : TrainingArguments.t -> result unit;
  trainer_init : Trainer.t -> result unit;
  train : Trainer.t -> result unit
}.
End Library.

(** ** The monad of the driver: a trace of calls and a result or an
    exception *)

Definition M (A : Type) : Type := (list event * result A)%type.

Definition ret {A} (a : A) : M A := ([], Ok a).
Definition bind {A B} (m : M A) (f : A -> M B) : M B :=
  match m with
  | (tr, Ok a) => let '(tr', r) := f a in ((tr ++ tr')%list, r)
  | (tr, Raise e) => (tr, Raise e)
  end.

(** A library call: the event, then the library's answer. *)
Definition call {A} (ev : event) (answer : result A) : M A := ([ev], answer).

Definition lift {A} (r : result A) : M A := ([], r).

Notation "'do' x <- m ; k" := (bind m (fun x => k))
  (at level 10, x name, m at level 100, k at level 200).
Notation "'do' ' p <- m ; k" := (bind m (fun x => match x with p => k end))
  (at level 10, p pattern, m at level 100, k at level 200).
Notation "m ;; k" := (bind m (fun _ => k))
  (at level 100, k at level 200, right associativity).

Definition trace {A} (m : M A) : list event := fst m.
Definition outcome {A} (m : M A) : result A := snd m.

(** ** The driver *)

(** [for param in model.encoder.parameters(): param.requires_grad = False] *)
Definition freeze_each (ids : list nat) (ps : list Param.t) : list Param.t :=
  foldl (fun ps i => alter Param.freeze i ps) ps ids.

(** [for name, param in model.decoder.named_parameters():
       if marker not in name: param.requires_grad = False] *)
Definition freeze_unless (marker : string) (named : list (string * nat))
    (ps : list Param.t) : list Param.t :=
  foldl (fun ps '(name, i) =>
           if negb (contains marker name) then alter Param.freeze i ps else ps)
        ps named.

(** [sum([np.prod(p.size()) for p in filter(lambda p: p.requires_grad,
    model.parameters())])] *)
Definition num_trainable_params (ps : list Param.t) : pynum :=
  py_sum (map Param.numel (filter (fun p => Param.requires_grad p = true) ps)).

Section Driver.
Variable L : Library.t.

Definition get_model_and_auxiliaries (args : Args.t)
  : M (Model.t * Tokenizer.t * FeatureExtractor) :=
  (if contains "xglm" (Args.decoder_name args) then
     call (AutoConfig_register "this_xglm" ThisXGLMConfig)
          (Library.register_config L "this_xglm" ThisXGLMConfig) ;;
     call (AutoModel_register ThisXGLMConfig ThisXGLMForCausalLM)
          (Library.register_model L ThisXGLMConfig ThisXGLMForCausalLM) ;;
     call (AutoModelForCausalLM_register ThisXGLMConfig ThisXGLMForCausalLM)
          (Library.register_causal_lm L ThisXGLMConfig ThisXGLMForCausalLM)
   else if contains "opt" (Args.decoder_name args) then
     call (AutoConfig_register "this_opt" ThisOPTConfig)
          (Library.register_config L "this_opt" ThisOPTConfig) ;;
     call (AutoModel_register ThisOPTConfig ThisOPTForCausalLM)
          (Library.register_model L ThisOPTConfig ThisOPTForCausalLM) ;;
     call (AutoModelForCausalLM_register ThisOPTConfig ThisOPTForCausalLM)
          (Library.register_causal_lm L ThisOPTConfig ThisOPTForCausalLM)
   else
     call (AutoConfig_register "this_gpt2" ThisGPT2Config)
          (Library.register_config L "this_gpt2" ThisGPT2Config) ;;
     call (AutoModel_register ThisGPT2Config ThisGPT2LMHeadModel)
          (Library.register_model L ThisGPT2Config ThisGPT2LMHeadModel) ;;
     call (AutoModelForCausalLM_register ThisGPT2Config ThisGPT2LMHeadModel)
          (Library.register_causal_lm L ThisGPT2Config ThisGPT2LMHeadModel)) ;;

  call (AutoConfig_register "smallcap" SmallCapConfig)
       (Library.register_config L "smallcap" SmallCapConfig) ;;
  call (AutoModel_register SmallCapConfig SmallCap)
       (Library.register_model L SmallCapConfig SmallCap) ;;

  do cross_attention_reduce_factor <-
    lift (getitem PARAMS2REDUCE_FACTOR (Args.attention_size args)) ;

  do feature_extractor <-
    call (CLIPFeatureExtractor_from_pretrained (Args.encoder_name args))
         (Library.feature_extractor_from_pretrained L (Args.encoder_name args)) ;
  do tokenizer <-
    call (AutoTokenizer_from_pretrained (Args.decoder_name args))
         (Library.tokenizer_from_pretrained L (Args.decoder_name args)) ;
  let tokenizer := Tokenizer.set_pad_token PAD_TOKEN tokenizer in
  let tokenizer := Tokenizer.set_eos_token EOS_TOKEN tokenizer in

  do model <-
    call (SmallCap_from_encoder_decoder_pretrained
            (Args.encoder_name args) (Args.decoder_name args)
            cross_attention_reduce_factor)
         (Library.from_encoder_decoder_pretrained L
            (Args.encoder_name args) (Args.decoder_name args)
            cross_attention_reduce_factor) ;
  let config := Model.config model in
  let config :=
    Config.set_vocab_size (DecoderConfig.vocab_size (Config.decoder config)) config in
  let config := Config.set_decoder_start_token_id None config in
  let config := Config.set_pad_token_id (Tokenizer.pad_token_id tokenizer) config in
  let config := Config.set_eos_token_id (Tokenizer.eos_token_id tokenizer) config in

  let config :=
    if negb (Args.disable_rag args) then
      let config := Config.set_k (Some (Args.k args)) config in
      Config.set_retrieval_encoder (Some (Args.retrieval_encoder args)) config
    else config in
  let config := Config.set_max_length CAPTION_LENGTH config in
  let config := Config.set_rag (negb (Args.disable_rag args)) config in
  let model := Model.set_config config model in

  let model :=
    Model.set_parameters
      (freeze_each (Model.encoder_parameters model) (Model.parameters model)) model in

  let model :=
    if contains "xglm" (Args.decoder_name args) || contains "opt" (Args.decoder_name args) then
      if negb (Args.train_decoder args) then
        Model.set_parameters
          (freeze_unless "encoder_attn" (Model.decoder_named_parameters model)
             (Model.parameters model)) model
      else model
    else
      if negb (Args.train_decoder args) then
        Model.set_parameters
          (freeze_unless "crossattention" (Model.decoder_named_parameters model)
             (Model.parameters model)) model
      else model in

  let num_trainable_params := num_trainable_params (Model.parameters model) in
  call (print ("Training a model with " +:+ format_num num_trainable_params
               +:+ " trainable parameters."))
       (Ok tt) ;;

  ret (model, tokenizer, feature_extractor).

Definition get_data (tokenizer : Tokenizer.t) (max_length : Z) (args : Args.t)
  : M Dataset :=
  do data <-
    call (load_data_for_training (Args.annotations_path args) (Args.captions_path args))
         (Library.load_data L (Args.annotations_path args) (Args.captions_path args)) ;
  do rows <- lift (getitem_str data "train") ;
  let train_df := pd_DataFrame rows in

  do train_dataset <-
    (if Args.ablation_visual args then
       let d := AblationFeaturesDataset
         {| DatasetArgs.df := train_df;
            DatasetArgs.features_path := path_join (Args.features_dir args) "train.hdf5";
            DatasetArgs.tokenizer := tokenizer;
            DatasetArgs.rag := negb (Args.disable_rag args);
            DatasetArgs.template_path := Args.template_path args;
            DatasetArgs.k := Args.k args;
            DatasetArgs.max_caption_length := max_length |} in
       call (Dataset_init d) (Library.dataset_init L d) ;; ret d
     else
       let d := TrainDataset
         {| DatasetArgs.df := train_df;
            DatasetArgs.features_path := path_join (Args.features_dir args) "train.hdf5";
            DatasetArgs.tokenizer := tokenizer;
            DatasetArgs.rag := negb (Args.disable_rag args);
            DatasetArgs.template_path := Args.template_path args;
            DatasetArgs.k := Args.k args;
            DatasetArgs.max_caption_length := max_length |} in
       call (Dataset_init d) (Library.dataset_init L d) ;; ret d) ;

  ret train_dataset.

Definition main (args : Args.t) : M unit :=
  do '(model, tokenizer, feature_extractor) <- get_model_and_auxiliaries args ;
  do train_dataset <-
    get_data tokenizer (Config.max_length (Model.config model)) args ;

  let model_type := if Args.disable_rag args then "norag" else "rag" in
  let output_dir :=
    if Args.ablation_visual args then
      model_type +:+ "_" +:+ format_num (Args.attention_size args) +:+ "M_"
        +:+ Args.decoder_name args +:+ "_ablation"
    else
      model_type +:+ "_" +:+ format_num (Args.attention_size args) +:+ "M_"
        +:+ Args.decoder_name args in

  let output_dir := path_join "/kaggle/working/" output_dir in

  let training_args :=
    {| TrainingArguments.num_train_epochs := Args.n_epochs args;
       TrainingArguments.per_device_train_batch_size := Args.batch_size args;
       TrainingArguments.gradient_accumulation_steps := Args.gradient_steps args;
       TrainingArguments.learning_rate := Args.lr args;
       TrainingArguments.fp16 := true;
       TrainingArguments.save_strategy := "epoch";
       TrainingArguments.save_total_limit := Args.n_epochs args;
       TrainingArguments.logging_strategy := "epoch";
       TrainingArguments.output_dir := output_dir;
       TrainingArguments.overwrite_output_dir := true |} in
  call (Seq2SeqTrainingArguments training_args)
       (Library.training_arguments_init L training_args) ;;

  let trainer :=
    {| Trainer.model := model;
       Trainer.args := training_args;
       Trainer.data_collator := Some default_data_collator;
       Trainer.train_dataset := train_dataset;
       Trainer.tokenizer := feature_extractor |} in
  call (Seq2SeqTrainer trainer) (Library.trainer_init L trainer) ;;

  call (Trainer_train trainer) (Library.train L trainer).

End Driver.

(** ** Notions used to state the properties *)

(** A step of either loop: the tensor at [i] is frozen or the store is
    left as it is. *)
Definition freeze_if (b : bool) (i : nat) (ps : list Param.t) : list Param.t :=
  if b then alter Param.freeze i ps else ps.

Definition frozen_if (b : bool) (o : option Param.t) : option Param.t :=
  if b then Param.freeze <$> o else o.

(** Whether the encoder loop reaches position [i]. *)
Definition reached (ids : list nat) (i : nat) : bool :=
  existsb (fun j => bool_decide (j = i)) ids.

(** Whether the decoder loop freezes position [i]: it is yielded under a
    name that does not contain the marker. *)
Definition reached_unless (marker : string) (named : list (string * nat)) (i : nat)
  : bool :=
  existsb (fun '(name, j) => negb (contains marker name) && bool_decide (j = i)) named.

(** The decoder family chosen from [args.decoder_name]: ['xglm' in name]
    first, then ['opt' in name], GPT-2 otherwise. *)
Inductive decoder_family : Type := XGLM | OPT | GPT2.

Definition family_of (decoder_name : string) : decoder_family :=
  if contains "xglm" decoder_name then XGLM
  else if contains "opt" decoder_name then OPT
  else GPT2.

Definition family_model_type (f : decoder_family) : string :=
  match f with XGLM => "this_xglm" | OPT => "this_opt" | GPT2 => "this_gpt2" end.
Definition family_config (f : decoder_family) : config_class :=
  match f with XGLM => ThisXGLMConfig | OPT => ThisOPTConfig | GPT2 => ThisGPT2Config end.
Definition family_model (f : decoder_family) : model_class :=
  match f with
  | XGLM => ThisXGLMForCausalLM | OPT => ThisOPTForCausalLM | GPT2 => ThisGPT2LMHeadModel
  end.

(** The five registrations, in the order of the calls. *)
Definition registrations (decoder_name : string) : list event :=
  let f := family_of decoder_name in
  [ AutoConfig_register (family_model_type f) (family_config f);
    AutoModel_register (family_config f) (family_model f);
    AutoModelForCausalLM_register (family_config f) (family_model f);
    AutoConfig_register "smallcap" SmallCapConfig;
    AutoModel_register SmallCapConfig SmallCap ].

(** None of the five registrations raises. *)
Definition registrations_ok (L : Library.t) (decoder_name : string) : Prop :=
  let f := family_of decoder_name in
  Library.register_config L (family_model_type f) (family_config f) = Ok tt
  ∧ Library.register_model L (family_config f) (family_model f) = Ok tt
  ∧ Library.register_causal_lm L (family_config f) (family_model f) = Ok tt
  ∧ Library.register_config L "smallcap" SmallCapConfig = Ok tt
  ∧ Library.register_model L SmallCapConfig SmallCap = Ok tt.

(** The name fragment that marks a cross-attention parameter. *)
Definition cross_attention_marker (decoder_name : string) : string :=
  if contains "xglm" decoder_name || contains "opt" decoder_name
  then "encoder_attn" else "crossattention".

(** The tokenizer, the configuration and the parameter store the driver
    hands back, as functions of what the libraries loaded. *)
Definition prepared_tokenizer (tok0 : Tokenizer.t) : Tokenizer.t :=
  {| Tokenizer.pad_token := Some PAD_TOKEN;
     Tokenizer.eos_token := Some EOS_TOKEN;
     Tokenizer.convert_tokens_to_ids := Tokenizer.convert_tokens_to_ids tok0 |}.

Definition prepared_config (args : Args.t) (tok0 : Tokenizer.t) (c : Config.t) : Config.t :=
  {| Config.vocab_size := DecoderConfig.vocab_size (Config.decoder c);
     Config.decoder_start_token_id := None;
     Config.pad_token_id := Tokenizer.convert_tokens_to_ids tok0 PAD_TOKEN;
     Config.eos_token_id := Tokenizer.convert_tokens_to_ids tok0 EOS_TOKEN;
     Config.k := if Args.disable_rag args then Config.k c else Some (Args.k args);
     Config.retrieval_encoder :=
       if Args.disable_rag args then Config.retrieval_encoder c
       else Some (Args.retrieval_encoder args);
     Config.max_length := CAPTION_LENGTH;
     Config.rag := negb (Args.disable_rag args);
     Config.decoder := Config.decoder c |}.

Definition prepared_parameters (args : Args.t) (m0 : Model.t) : list Param.t :=
  let ps := freeze_each (Model.encoder_parameters m0) (Model.parameters m0) in
  if Args.train_decoder args then ps
  else freeze_unless (cross_attention_marker (Args.decoder_name args))
         (Model.decoder_named_parameters m0) ps.

Definition prepared_model (args : Args.t) (tok0 : Tokenizer.t) (m0 : Model.t) : Model.t :=
  {| Model.config := prepared_config args tok0 (Model.config m0);
     Model.parameters := prepared_parameters args m0;
     Model.encoder_parameters := Model.encoder_parameters m0;
     Model.decoder_named_parameters := Model.decoder_named_parameters m0 |}.

(** The calls of a run of [get_model_and_auxiliaries] that returns. *)
Definition loading_trace (args : Args.t) (factor : Z) (m : Model.t)
  : list event :=
  registrations (Args.decoder_name args) ++
  [ CLIPFeatureExtractor_from_pretrained (Args.encoder_name args);
    AutoTokenizer_from_pretrained (Args.decoder_name args);
    SmallCap_from_encoder_decoder_pretrained
      (Args.encoder_name args) (Args.decoder_name args) factor;
    print ("Training a model with "
           +:+ format_num (num_trainable_params (Model.parameters m))
           +:+ " trainable parameters.") ].


(** The attention sizes the driver supports: 28, 14, 7, 3.5 and 1.75. *)
Definition ATTENTION_SIZES : list Q := [28; 14; 7; 7 # 2; 7 # 4]%Q.

Definition listed_size (a : pynum) : Prop :=
  ∃ q, num_value a = Some q ∧ Exists (Qeq q) ATTENTION_SIZES.

(** The dataset [get_data] builds from the rows of the ['train'] split. *)
Definition training_dataset (args : Args.t) (tokenizer : Tokenizer.t)
    (max_length : Z) (rows : list Row) : Dataset :=
  (if Args.ablation_visual args then AblationFeaturesDataset else TrainDataset)
    {| DatasetArgs.df := pd_DataFrame rows;
       DatasetArgs.features_path := path_join (Args.features_dir args) "train.hdf5";
       DatasetArgs.tokenizer := tokenizer;
       DatasetArgs.rag := negb (Args.disable_rag args);
       DatasetArgs.template_path := Args.template_path args;
       DatasetArgs.k := Args.k args;
       DatasetArgs.max_caption_length := max_length |}.

(** Modelled from the spec: the dataset classes [TrainDataset] and
    [AblationFeaturesDataset] of [src/utils.py] are missing. The examples
    of a dataset optionally carry [k] retrieved reference captions: they
    do when the dataset is built with [rag] on, and [k] is the number it
    is built with. *)
Definition carries_retrieved_captions (d : Dataset) : bool :=
  DatasetArgs.rag (dataset_args d).
Definition retrieved_captions (d : Dataset) : Z :=
  DatasetArgs.k (dataset_args d).

(** The name of the run: [{norag|rag}_{attention_size}M_{decoder_name}],
    with [_ablation] appended for the visual ablation. *)
Definition run_name (args : Args.t) : string :=
  (if Args.disable_rag args then "norag" else "rag")
  +:+ "_" +:+ format_num (Args.attention_size args)
  +:+ "M_" +:+ Args.decoder_name args
  +:+ (if Args.ablation_visual args then "_ablation" else "").

Definition training_arguments (L : Library.t) (args : Args.t) : TrainingArguments.t :=
  {| TrainingArguments.num_train_epochs := Args.n_epochs args;
     TrainingArguments.per_device_train_batch_size := Args.batch_size args;
     TrainingArguments.gradient_accumulation_steps := Args.gradient_steps args;
     TrainingArguments.learning_rate := Args.lr args;
     TrainingArguments.fp16 := true;
     TrainingArguments.save_strategy := "epoch";
     TrainingArguments.save_total_limit := Args.n_epochs args;
     TrainingArguments.logging_strategy := "epoch";
     TrainingArguments.output_dir := "/kaggle/working/" +:+ run_name args;
     TrainingArguments.overwrite_output_dir := true |}.

(** The trainer [main] builds, and the calls it ends with. *)
Definition trainer_of (L : Library.t) (args : Args.t) (m : Model.t) (d : Dataset)
    (fe : FeatureExtractor) : Trainer.t :=
  {| Trainer.model := m;
     Trainer.args := training_arguments L args;
     Trainer.data_collator := Some default_data_collator;
     Trainer.train_dataset := d;
     Trainer.tokenizer := fe |}.

Definition start_training (L : Library.t) (trainer : Trainer.t) : M unit :=
  call (Seq2SeqTrainingArguments (Trainer.args trainer))
       (Library.training_arguments_init L (Trainer.args trainer)) ;;
  call (Seq2SeqTrainer trainer) (Library.trainer_init L trainer) ;;
  call (Trainer_train trainer) (Library.train L trainer).

(** The calls that belong to training proper. *)
Definition is_training_call (e : event) : bool :=
  match e with
  | Seq2SeqTrainingArguments _ | Seq2SeqTrainer _ | Trainer_train _ => true
  | _ => false
  end.

Definition is_train (e : event) : bool :=
  match e with
  | Trainer_train _ => true
  | _ => false
  end.

(** ** A small instance: a GPT-2 decoder with one cross-attention layer *)

Definition gpt2_config : Config.t :=
  {| Config.vocab_size := 0;
     Config.decoder_start_token_id := Some 50256;
     Config.pad_token_id := None;
     Config.eos_token_id := None;
     Config.k := None;
     Config.retrieval_encoder := None;
     Config.max_length := 20;
     Config.rag := false;
     Config.decoder := {| DecoderConfig.vocab_size := 50257 |} |}.

Definition gpt2_model : Model.t :=
  {| Model.config := gpt2_config;
     Model.parameters :=
       [ Param.mk [768; 3; 32; 32] true; Param.mk [768] true;
         Param.mk [50257; 768] true; Param.mk [768; 192] true; Param.mk [192] true ];
     Model.encoder_parameters := [0%nat; 1%nat];
     Model.decoder_named_parameters :=
       [ ("transformer.wte.weight", 2%nat);
         ("transformer.h.0.crossattention.c_attn.weight", 3%nat);
         ("transformer.h.0.crossattention.c_attn.bias", 4%nat) ] |}.

Definition gpt2_tokenizer : Tokenizer.t :=
  {| Tokenizer.pad_token := None;
     Tokenizer.eos_token := Some "<|endoftext|>";
     Tokenizer.convert_tokens_to_ids := fun s =>
       if String.eqb s "!" then Some 0
       else if String.eqb s "." then Some 13
       else Some 50256 |}.

(** Libraries that answer every call. *)
Definition gpt2_library : Library.t :=
  {| Library.register_config := fun _ _ => Ok tt;
     Library.register_model := fun _ _ => Ok tt;
     Library.register_causal_lm := fun _ _ => Ok tt;
     Library.feature_extractor_from_pretrained := fun _ => Ok (FeatureExtractorRef 1);
     Library.tokenizer_from_pretrained := fun _ => Ok gpt2_tokenizer;
     Library.from_encoder_decoder_pretrained := fun _ _ _ => Ok gpt2_model;
     Library.load_data := fun _ _ => Ok [("train", ["row 1"; "row 2"]); ("val", ["row 3"])];
     Library.dataset_init := fun _ => Ok tt;
     Library.training_arguments_init := fun _ => Ok tt;
     Library.trainer_init := fun _ => Ok tt;
     Library.train := fun _ => Ok tt |}.

(** The default command line, and one with [--attention_size 3.5
    --disable_rag --ablation_visual], one with an unsupported size. *)
Definition args_small : Args.t :=
  Args.mk "/features" "/annotations.json" "/captions.json" "/experiments"
    "openai/clip-vit-base-patch32" "gpt2" (PyFloat (FFinite (7 # 2)))
    false true 4 "RN50x64" "/template.txt" 10 (Args.lr Args.default)
    64 1 true.

Definition args_unsupported : Args.t :=
  Args.mk "/features" "/annotations.json" "/captions.json" "/experiments"
    "openai/clip-vit-base-patch32" "gpt2" (PyFloat (FFinite 5))
    false false 4 "RN50x64" "/template.txt" 10 (Args.lr Args.default)
    64 1 false.

(** ** Further notions and instances *)

(** The calls of [get_model_and_auxiliaries] before it reports the number
    of trainable parameters, in order; the three loads come after the
    lookup of the reduce factor. *)
Definition loading_calls (args : Args.t) : list event :=
  registrations (Args.decoder_name args) ++
  match dict_get PARAMS2REDUCE_FACTOR (Args.attention_size args) with
  | Some factor =>
      [ CLIPFeatureExtractor_from_pretrained (Args.encoder_name args);
        AutoTokenizer_from_pretrained (Args.decoder_name args);
        SmallCap_from_encoder_decoder_pretrained
          (Args.encoder_name args) (Args.decoder_name args) factor ]
  | None => []
  end.

Definition is_registration (e : event) : bool :=
  match e with
  | AutoConfig_register _ _ | AutoModel_register _ _
  | AutoModelForCausalLM_register _ _ => true
  | _ => false
  end.

(** Two command lines that agree on what [get_model_and_auxiliaries]
    reads: [k] and [retrieval_encoder] are read only with RAG on. *)
Definition same_loading_options (a b : Args.t) : Prop :=
  Args.encoder_name a = Args.encoder_name b
  ∧ Args.decoder_name a = Args.decoder_name b
  ∧ Args.attention_size a = Args.attention_size b
  ∧ Args.train_decoder a = Args.train_decoder b
  ∧ Args.disable_rag a = Args.disable_rag b
  ∧ (Args.disable_rag a = false →
     Args.k a = Args.k b ∧ Args.retrieval_encoder a = Args.retrieval_encoder b).

(** What the library answered to the call [ev], when it raised. *)
Definition raised_by (L : Library.t) (ev : event) : option exn :=
  let error {A} (r : result A) : option exn :=
    match r with Ok _ => None | Raise e => Some e end in
  match ev with
  | AutoConfig_register t c => error (Library.register_config L t c)
  | AutoModel_register c m => error (Library.register_model L c m)
  | AutoModelForCausalLM_register c m => error (Library.register_causal_lm L c m)
  | CLIPFeatureExtractor_from_pretrained n =>
      error (Library.feature_extractor_from_pretrained L n)
  | AutoTokenizer_from_pretrained n => error (Library.tokenizer_from_pretrained L n)
  | SmallCap_from_encoder_decoder_pretrained e d f =>
      error (Library.from_encoder_decoder_pretrained L e d f)
  | print _ => None
  | load_data_for_training a c => error (Library.load_data L a c)
  | Dataset_init d => error (Library.dataset_init L d)
  | Seq2SeqTrainingArguments kw => error (Library.training_arguments_init L kw)
  | Seq2SeqTrainer t => error (Library.trainer_init L t)
  | Trainer_train t => error (Library.train L t)
  end.

(** A model with a projection between encoder and decoder that belongs
    to neither, and libraries that load it. *)
Definition bridged_model : Model.t :=
  {| Model.config := gpt2_config;
     Model.parameters :=
       [ Param.mk [768; 3; 32; 32] true; Param.mk [768] true;
         Param.mk [50257; 768] true; Param.mk [768; 192] true; Param.mk [192] true;
         Param.mk [768; 768] true ];
     Model.encoder_parameters := [0%nat; 1%nat];
     Model.decoder_named_parameters :=
       [ ("transformer.wte.weight", 2%nat);
         ("transformer.h.0.crossattention.c_attn.weight", 3%nat);
         ("transformer.h.0.crossattention.c_attn.bias", 4%nat) ] |}.

Definition with_model (m : Model.t) (L : Library.t) : Library.t :=
  {| Library.register_config := Library.register_config L;
     Library.register_model := Library.register_model L;
     Library.register_causal_lm := Library.register_causal_lm L;
     Library.feature_extractor_from_pretrained :=
       Library.feature_extractor_from_pretrained L;
     Library.tokenizer_from_pretrained := Library.tokenizer_from_pretrained L;
     Library.from_encoder_decoder_pretrained := fun _ _ _ => Ok m;
     Library.load_data := Library.load_data L;
     Library.dataset_init := Library.dataset_init L;
     Library.training_arguments_init := Library.training_arguments_init L;
     Library.trainer_init := Library.trainer_init L;
     Library.train := Library.train L |}.

(** Libraries whose annotation file has no ['train'] split, and libraries
    whose trainer cannot be built. *)
Definition with_data (data : result (list (string * list Row))) (L : Library.t)
  : Library.t :=
  {| Library.register_config := Library.register_config L;
     Library.register_model := Library.register_model L;
     Library.register_causal_lm := Library.register_causal_lm L;
     Library.feature_extractor_from_pretrained :=
       Library.feature_extractor_from_pretrained L;
     Library.tokenizer_from_pretrained := Library.tokenizer_from_pretrained L;
     Library.from_encoder_decoder_pretrained :=
       Library.from_encoder_decoder_pretrained L;
     Library.load_data := fun _ _ => data;
     Library.dataset_init := Library.dataset_init L;
     Library.training_arguments_init := Library.training_arguments_init L;
     Library.trainer_init := Library.trainer_init L;
     Library.train := Library.train L |}.

Definition with_trainer_init (r : result unit) (L : Library.t) : Library.t :=
  {| Library.register_config := Library.register_config L;
     Library.register_model := Library.register_model L;
     Library.register_causal_lm := Library.register_causal_lm L;
     Library.feature_extractor_from_pretrained :=
       Library.feature_extractor_from_pretrained L;
     Library.tokenizer_from_pretrained := Library.tokenizer_from_pretrained L;
     Library.from_encoder_decoder_pretrained :=
       Library.from_encoder_decoder_pretrained L;
     Library.load_data := Library.load_data L;
     Library.dataset_init := Library.dataset_init L;
     Library.training_arguments_init := Library.training_arguments_init L;
     Library.trainer_init := fun _ => r;
     Library.train := Library.train L |}.

(** A GPT-2 checkpoint whose name happens to contain ['opt'], and the
    default command line with other training options. *)
Definition args_adopted : Args.t :=
  Args.mk "/features" "/annotations.json" "/captions.json" "/experiments"
    "openai/clip-vit-base-patch32" "adopted-gpt2" (PyInt 7)
    false false 4 "RN50x64" "/template.txt" 10 (Args.lr Args.default)
    64 1 false.

Definition args_long_run : Args.t :=
  Args.mk "/data/features" "/data/annotations.json" "/data/captions.json" "/tmp"
    "openai/clip-vit-base-patch32" "gpt2" (PyInt 7)
    false false 4 "RN50x64" "/data/template.txt" 50 (PyFloat (FFinite (1 # 4)))
    16 4 true.

(** Libraries that load what a run on [gpt2_library] returned. *)
Definition checkpoint_library : Library.t :=
  {| Library.register_config := fun _ _ => Ok tt;
     Library.register_model := fun _ _ => Ok tt;
     Library.register_causal_lm := fun _ _ => Ok tt;
     Library.feature_extractor_from_pretrained := fun _ => Ok (FeatureExtractorRef 2);
     Library.tokenizer_from_pretrained := fun _ => Ok (prepared_tokenizer gpt2_tokenizer);
     Library.from_encoder_decoder_pretrained := fun _ _ _ =>
       Ok (prepared_model Args.default gpt2_tokenizer gpt2_model);
     Library.load_data := fun _ _ => Ok [("train", ["row 1"; "row 2"]); ("val", ["row 3"])];
     Library.dataset_init := fun _ => Ok tt;
     Library.training_arguments_init := fun _ => Ok tt;
     Library.trainer_init := fun _ => Ok tt;
     Library.train := fun _ => Ok tt |}.

(** [gpt2_model] with its parameters yielded in another order, one of
    them twice. *)
Definition gpt2_model_reordered : Model.t :=
  {| Model.config := gpt2_config;
     Model.parameters := Model.parameters gpt2_model;
     Model.encoder_parameters := [1%nat; 0%nat; 1%nat];
     Model.decoder_named_parameters :=
       [ ("transformer.h.0.crossattention.c_attn.bias", 4%nat);
         ("transformer.wte.weight", 2%nat);
         ("transformer.h.0.crossattention.c_attn.weight", 3%nat) ] |}.

(** How Python writes the attention sizes the driver supports: an [int]
    without a point, a [float] with one. *)
Definition ATTENTION_SIZE_TEXTS : list (pynum * string) :=
  [ (PyInt 28, "28"); (PyInt 14, "14"); (PyInt 7, "7");
    (PyFloat (FFinite 28), "28.0"); (PyFloat (FFinite 14), "14.0");
    (PyFloat (FFinite 7), "7.0"); (PyFloat (FFinite (7 # 2)), "3.5");
    (PyFloat (FFinite (7 # 4)), "1.75") ].

(** The same type and the same value. *)
Definition same_number (a b : pynum) : Prop :=
  match a, b with
  | PyInt x, PyInt y => x = y
  | PyFloat (FFinite x), PyFloat (FFinite y) => (x == y)%Q
  | _, _ => False
  end.

(** The number of elements of the trainable tensors, as an integer. *)
Definition element_count (ps : list Param.t) : Z :=
  foldr Z.add 0
    (map (fun p => foldr Z.mul 1 (Param.size p))
       (filter (fun p => Param.requires_grad p = true) ps)).

(** A tensor with at least one dimension, none of them negative. *)
Definition sized (p : Param.t) : Prop :=
  Param.size p ≠ [] ∧ Forall (fun d => (0 ≤ d)%Z) (Param.size p).

(** A model whose decoder reaches, under a cross-attention name, a tensor
    of the encoder; and the default command line with [--train_decoder]. *)
Definition shared_model : Model.t :=
  {| Model.config := gpt2_config;
     Model.parameters :=
       [ Param.mk [768; 3; 32; 32] true; Param.mk [768; 192] true;
         Param.mk [50257; 768] true ];
     Model.encoder_parameters := [0%nat; 1%nat];
     Model.decoder_named_parameters :=
       [ ("transformer.h.0.crossattention.c_attn.weight", 1%nat);
         ("transformer.wte.weight", 2%nat) ] |}.

Definition args_train_decoder : Args.t :=
  Args.mk "/features" "/annotations.json" "/captions.json" "/experiments"
    "openai/clip-vit-base-patch32" "gpt2" (PyInt 7)
    true false 4 "RN50x64" "/template.txt" 10 (Args.lr Args.default)
    64 1 false.

(** Parameter stores on which numpy leaves the integers: a trainable
    0-dimensional tensor (a temperature, say), and [2^63] elements. *)
Definition parameters_with_scalar : list Param.t :=
  [ Param.mk [768; 192] true; Param.mk [192] true; Param.mk [] true ].

Definition parameters_too_many : list Param.t :=
  [ Param.mk [4294967296; 2147483648] true ].

(** The command line [--attention_size 7]. *)
Definition args_seven : Args.t :=
  Args.mk "/features" "/annotations.json" "/captions.json" "/experiments"
    "openai/clip-vit-base-patch32" "gpt2" (PyFloat (FFinite 7))
    false false 4 "RN50x64" "/template.txt" 10 (Args.lr Args.default)
    64 1 false.

(** ** Tactics *)

(** Case analysis on the answer to the next library call. *)
Ltac next_answer :=
  match goal with
  | |- context [match ?r with Ok _ => _ | Raise _ => _ end] =>
      lazymatch r with
      | Library.register_config _ _ _ => idtac
      | Library.register_model _ _ _ => idtac
      | Library.register_causal_lm _ _ _ => idtac
      | Library.feature_extractor_from_pretrained _ _ => idtac
      | Library.tokenizer_from_pretrained _ _ => idtac
      | Library.from_encoder_decoder_pretrained _ _ _ _ => idtac
      | Library.load_data _ _ _ => idtac
      | Library.dataset_init _ _ => idtac
      | Library.training_arguments_init _ _ => idtac
      | Library.trainer_init _ _ => idtac
      | Library.train _ _ => idtac
      end;
      destruct r as [?|?] eqn:?
  end.

(** The exception is the answer to the last call of the trace. *)
Ltac blame_last_call :=
  right; eexists; split; [reflexivity|]; cbn [raised_by];
  match goal with H : _ = Raise _ |- _ => rewrite H end; reflexivity.

(** * Properties *)

(** ** Numbers *)

(** The default learning rate is the double written [1e-4], and that is
    how it is printed. *)
Lemma default_lr :
  Args.lr Args.default = PyFloat (round_double (1 # 10000))
  ∧ format_num (Args.lr Args.default) = "0.0001".
Proof. split; vm_compute; reflexivity. Qed.

(** [repr] in its fixed and exponent forms. *)
Lemma format_float_forms :
  format_float (FFinite 7) = "7.0"
  ∧ format_float (FFinite (7 # 4)) = "1.75"
  ∧ format_float (round_double (1 # 10)) = "0.1"
  ∧ format_float (round_double (1 # 100000)) = "1e-05"
  ∧ format_float (FFinite 1000000000000000) = "1000000000000000.0"
  ∧ format_float (FFinite 10000000000000000) = "1e+16"
  ∧ format_float (round_double (100000000000000000000000)) = "1e+23"
  ∧ format_float (FFinite (- (5 # 2))) = "-2.5"
  ∧ format_float (FInf true) = "-inf"
  ∧ format_float FNaN = "nan".
Proof. repeat split; vm_compute; reflexivity. Qed.

(** With a trainable 0-dimensional tensor the count is a float, and
    [2^63] elements wrap around. *)
Lemma num_trainable_params_numpy :
  format_num (num_trainable_params parameters_with_scalar) = "147649.0"
  ∧ format_num (num_trainable_params parameters_too_many) = "-9223372036854775808".
Proof. split; vm_compute; reflexivity. Qed.

(** ** The command line *)

Lemma parser_defaults : Parser.defaults = Args.vars Args.default.
Proof. reflexivity. Qed.

(** ** Strings *)

(** [String.prefix] is [startswith], and [contains] is Python's [in]. *)
Lemma prefix_spec (sub s : string) :
  String.prefix sub s = true ↔ ∃ post, s = sub +:+ post.
Proof.
  revert sub. induction s as [|b s IH]; intros [|a sub].
  - split; [by exists ""|done].
  - split; [done|]. intros [post Hpost]. discriminate Hpost.
  - split; [by exists (String b s)|done].
  - change (String.prefix (String a sub) (String b s))
      with (if Ascii.ascii_dec a b then String.prefix sub s else false).
    destruct (Ascii.ascii_dec a b) as [->|Hne].
    + rewrite IH. split; intros [post Hpost]; exists post.
      * by rewrite Hpost.
      * by injection Hpost.
    + split; [done|]. intros [post Hpost]. injection Hpost as <- _. done.
Qed.

Lemma contains_spec (sub s : string) :
  contains sub s = true ↔ ∃ pre post, s = pre +:+ sub +:+ post.
Proof.
  induction s as [|b s IH].
  - change (contains sub "") with (String.prefix sub "" || false).
    rewrite orb_false_r, prefix_spec. split.
    + intros [post Hpost]. by exists "", post.
    + intros ([|c pre] & post & Hpost); [by exists post | discriminate Hpost].
  - change (contains sub (String b s)) with (String.prefix sub (String b s) || contains sub s).
    rewrite orb_true_iff, prefix_spec, IH. split.
    + intros [[post Hpost]|(pre & post & Hpost)].
      * by exists "", post.
      * exists (String b pre), post. by rewrite Hpost.
    + intros ([|c pre] & post & Hpost).
      * left. by exists post.
      * right. injection Hpost as <- Hpost. by exists pre, post.
Qed.

(** ** The freezing loops *)

Lemma frozen_if_orb (a b : bool) (o : option Param.t) :
  frozen_if a (frozen_if b o) = frozen_if (b || a) o.
Proof. destruct a, b, o; reflexivity. Qed.

Lemma freeze_if_lookup (b : bool) (i j : nat) (ps : list Param.t) :
  freeze_if b i ps !! j = frozen_if (b && bool_decide (i = j)) (ps !! j).
Proof.
  unfold freeze_if, frozen_if. destruct b; simpl; [|done].
  case_bool_decide as Hij.
  - subst j. apply list_lookup_alter_eq.
  - by apply list_lookup_alter_ne.
Qed.

Lemma freeze_each_lookup (ids : list nat) (ps : list Param.t) (i : nat) :
  freeze_each ids ps !! i = frozen_if (reached ids i) (ps !! i).
Proof.
  unfold freeze_each. revert ps.
  induction ids as [|j ids IH]; intros ps; simpl; [done|].
  rewrite IH. change (alter Param.freeze j ps) with (freeze_if true j ps).
  rewrite freeze_if_lookup, frozen_if_orb. done.
Qed.

Lemma freeze_unless_lookup (marker : string) (named : list (string * nat))
    (ps : list Param.t) (i : nat) :
  freeze_unless marker named ps !! i
  = frozen_if (reached_unless marker named i) (ps !! i).
Proof.
  unfold freeze_unless. revert ps.
  induction named as [|[name j] named IH]; intros ps; simpl; [done|].
  rewrite IH.
  change (if negb (contains marker name) then alter Param.freeze j ps else ps)
    with (freeze_if (negb (contains marker name)) j ps).
  rewrite freeze_if_lookup, frozen_if_orb. done.
Qed.

Lemma freeze_each_length (ids : list nat) (ps : list Param.t) :
  length (freeze_each ids ps) = length ps.
Proof.
  unfold freeze_each. revert ps.
  induction ids as [|j ids IH]; intros ps; simpl; [done|].
  by rewrite IH, length_alter.
Qed.

Lemma freeze_unless_length (marker : string) (named : list (string * nat))
    (ps : list Param.t) :
  length (freeze_unless marker named ps) = length ps.
Proof.
  unfold freeze_unless. revert ps.
  induction named as [|[name j] named IH]; intros ps; simpl; [done|].
  rewrite IH. destruct (negb _); [apply length_alter | done].
Qed.

Lemma reached_elem (ids : list nat) (i : nat) : reached ids i = true ↔ i ∈ ids.
Proof.
  unfold reached. rewrite existsb_exists. split.
  - intros (j & Hj & Heq). apply bool_decide_eq_true in Heq. subst.
    by apply list_elem_of_In.
  - intros Hi. exists i. split; [by apply list_elem_of_In | by apply bool_decide_eq_true].
Qed.

Lemma reached_unless_elem (marker : string) (named : list (string * nat)) (i : nat) :
  reached_unless marker named i = true
  ↔ ∃ name, (name, i) ∈ named ∧ contains marker name = false.
Proof.
  unfold reached_unless. rewrite existsb_exists. split.
  - intros ([name j] & Hj & Heq). apply andb_true_iff in Heq as [Hm Heq].
    apply bool_decide_eq_true in Heq. subst. exists name.
    split; [by apply list_elem_of_In | by apply negb_true_iff].
  - intros (name & Hin & Hm). exists (name, i).
    split; [by apply list_elem_of_In|].
    apply andb_true_iff. split; [by apply negb_true_iff | by apply bool_decide_eq_true].
Qed.

(** ** Runs of [get_model_and_auxiliaries] *)

(** With the answers of the libraries given, the run is determined: the
    function returns, with this trace and this result. *)
Lemma get_model_and_auxiliaries_run (L : Library.t) (args : Args.t)
    (factor : Z) (fe : FeatureExtractor) (tok0 : Tokenizer.t) (m0 : Model.t) :
  registrations_ok L (Args.decoder_name args) →
  dict_get PARAMS2REDUCE_FACTOR (Args.attention_size args) = Some factor →
  Library.feature_extractor_from_pretrained L (Args.encoder_name args) = Ok fe →
  Library.tokenizer_from_pretrained L (Args.decoder_name args) = Ok tok0 →
  Library.from_encoder_decoder_pretrained L
    (Args.encoder_name args) (Args.decoder_name args) factor = Ok m0 →
  get_model_and_auxiliaries L args
  = (loading_trace args factor (prepared_model args tok0 m0),
     Ok (prepared_model args tok0 m0, prepared_tokenizer tok0, fe)).
Proof.
  intros (H1 & H2 & H3 & H4 & H5) Hf Hfe Htok Hm.
  unfold get_model_and_auxiliaries, loading_trace, registrations, getitem,
    prepared_model, prepared_parameters, prepared_config, cross_attention_marker,
    family_of in *.
  rewrite Hf, Hfe, Htok. simpl. rewrite Hm.
  destruct (contains "xglm" _), (contains "opt" _); simpl in *;
    rewrite H1, H2, H3, H4, H5; simpl;
    destruct (Args.disable_rag args), (Args.train_decoder args); reflexivity.
Qed.

(** Conversely, a run that returns has received an answer from every
    library call, and is the run above. *)
Lemma get_model_and_auxiliaries_inv (L : Library.t) (args : Args.t)
    (tr : list event) (m : Model.t) (tok : Tokenizer.t) (fe : FeatureExtractor) :
  get_model_and_auxiliaries L args = (tr, Ok (m, tok, fe)) →
  ∃ factor tok0 m0,
    registrations_ok L (Args.decoder_name args)
    ∧ dict_get PARAMS2REDUCE_FACTOR (Args.attention_size args) = Some factor
    ∧ Library.feature_extractor_from_pretrained L (Args.encoder_name args) = Ok fe
    ∧ Library.tokenizer_from_pretrained L (Args.decoder_name args) = Ok tok0
    ∧ Library.from_encoder_decoder_pretrained L
        (Args.encoder_name args) (Args.decoder_name args) factor = Ok m0
    ∧ m = prepared_model args tok0 m0
    ∧ tok = prepared_tokenizer tok0
    ∧ tr = loading_trace args factor m.
Proof.
  intros Hrun.
  assert (∃ factor fe' tok0 m0,
    registrations_ok L (Args.decoder_name args)
    ∧ dict_get PARAMS2REDUCE_FACTOR (Args.attention_size args) = Some factor
    ∧ Library.feature_extractor_from_pretrained L (Args.encoder_name args) = Ok fe'
    ∧ Library.tokenizer_from_pretrained L (Args.decoder_name args) = Ok tok0
    ∧ Library.from_encoder_decoder_pretrained L
        (Args.encoder_name args) (Args.decoder_name args) factor = Ok m0)
    as (factor & fe' & tok0 & m0 & Hreg & Hf & Hfe & Htok & Hm).
  { revert Hrun.
    unfold get_model_and_auxiliaries, registrations_ok, family_of, getitem,
      bind, call, lift, ret.
    destruct (dict_get _ _) as [factor|];
      (destruct (contains "xglm" _); [|destruct (contains "opt" _)]);
      repeat match goal with
             | |- context [match ?r with Ok _ => _ | Raise _ => _ end] =>
                 destruct r as [?|?] eqn:?; try discriminate
             end;
      repeat match goal with u : unit |- _ => destruct u end;
      intros _; do 4 eexists; repeat split; simpl; first [eassumption | reflexivity]. }
  rewrite (get_model_and_auxiliaries_run L args factor fe' tok0 m0) in Hrun by done.
  injection Hrun as <- <- <- <-. exists factor, tok0, m0. done.
Qed.

(** The state of every tensor after a run that returns, with no assumption
    on which tensors the encoder and the decoder share. *)
Lemma prepared_parameters_lookup (args : Args.t) (m0 : Model.t) (i : nat) :
  prepared_parameters args m0 !! i
  = frozen_if
      (reached (Model.encoder_parameters m0) i
       || negb (Args.train_decoder args)
          && reached_unless (cross_attention_marker (Args.decoder_name args))
               (Model.decoder_named_parameters m0) i)
      (Model.parameters m0 !! i).
Proof.
  unfold prepared_parameters. destruct (Args.train_decoder args); simpl.
  - by rewrite freeze_each_lookup, orb_false_r.
  - by rewrite freeze_unless_lookup, freeze_each_lookup, frozen_if_orb.
Qed.

Lemma prepared_parameters_length (args : Args.t) (m0 : Model.t) :
  length (prepared_parameters args m0) = length (Model.parameters m0).
Proof.
  unfold prepared_parameters. destruct (Args.train_decoder args).
  - apply freeze_each_length.
  - by rewrite freeze_unless_length, freeze_each_length.
Qed.

(** C1. After [get_model_and_auxiliaries args] returns, every parameter of
    [model.encoder] has [requires_grad] equal to [False]. *)
Theorem encoder_parameters_frozen (L : Library.t) (args : Args.t)
    (tr : list event) (m : Model.t) (tok : Tokenizer.t) (fe : FeatureExtractor) :
  get_model_and_auxiliaries L args = (tr, Ok (m, tok, fe)) →
  ∀ (i : nat) (p : Param.t),
    i ∈ Model.encoder_parameters m →
    Model.parameters m !! i = Some p →
    Param.requires_grad p = false.
Proof.
  intros Hrun i p Hi Hp.
  apply get_model_and_auxiliaries_inv in Hrun
    as (factor & tok0 & m0 & _ & _ & _ & _ & _ & -> & _ & _).
  simpl in Hi, Hp. rewrite prepared_parameters_lookup in Hp.
  apply reached_elem in Hi. rewrite Hi in Hp. simpl in Hp.
  destruct (Model.parameters m0 !! i) as [p0|]; simplify_eq/=. done.
Qed.

Lemma encoder_parameters_frozen_witness :
  get_model_and_auxiliaries gpt2_library Args.default
  = (loading_trace Args.default 4
       (prepared_model Args.default gpt2_tokenizer gpt2_model),
     Ok (prepared_model Args.default gpt2_tokenizer gpt2_model,
         prepared_tokenizer gpt2_tokenizer, FeatureExtractorRef 1))
  ∧ Param.requires_grad (Param.mk [768] false) = false.
Proof.
  split; [reflexivity|].
  apply (encoder_parameters_frozen gpt2_library Args.default _ _ _ _ eq_refl 1%nat).
  - right. left.
  - reflexivity.
Defined.

Lemma NoDup_snd_functional {A} (l : list (A * nat)) (a b : A) (i : nat) :
  NoDup l.*2 → (a, i) ∈ l → (b, i) ∈ l → a = b.
Proof.
  induction l as [|[c j] l IH]; simpl; intros Hnd Ha Hb.
  - by apply elem_of_nil in Ha.
  - apply NoDup_cons in Hnd as [Hj Hnd].
    apply elem_of_cons in Ha as [Ha|Ha], Hb as [Hb|Hb]; simplify_eq.
    + done.
    + destruct Hj. apply list_elem_of_fmap. by exists (b, j).
    + destruct Hj. apply list_elem_of_fmap. by exists (a, j).
    + by apply IH.
Qed.

(** C2. When [args.train_decoder] is [False], the decoder parameters
    whose name does not contain the cross-attention marker get
    [requires_grad = False] and the others are left as they were loaded;
    when it is [True], every decoder parameter is left as loaded. The
    marker is ['encoder_attn'] for an XGLM or OPT decoder, ['crossattention']
    otherwise. [named_parameters()] yields a tensor once, and the decoder
    shares no tensor with the encoder. *)
Theorem decoder_parameters_freezing (L : Library.t) (args : Args.t)
    (tr : list event) (m : Model.t) (tok : Tokenizer.t) (fe : FeatureExtractor) :
  get_model_and_auxiliaries L args = (tr, Ok (m, tok, fe)) →
  NoDup (Model.decoder_named_parameters m).*2 →
  (∀ i, i ∈ Model.encoder_parameters m → i ∉ (Model.decoder_named_parameters m).*2) →
  ∃ factor m0,
    dict_get PARAMS2REDUCE_FACTOR (Args.attention_size args) = Some factor
    ∧ Library.from_encoder_decoder_pretrained L
        (Args.encoder_name args) (Args.decoder_name args) factor = Ok m0
    ∧ Model.decoder_named_parameters m = Model.decoder_named_parameters m0
    ∧ ∀ (name : string) (i : nat),
        (name, i) ∈ Model.decoder_named_parameters m →
        Model.parameters m !! i
        = if Args.train_decoder args then Model.parameters m0 !! i
          else if contains
                    (if contains "xglm" (Args.decoder_name args)
                        || contains "opt" (Args.decoder_name args)
                     then "encoder_attn" else "crossattention") name
               then Model.parameters m0 !! i
               else Param.freeze <$> Model.parameters m0 !! i.
Proof.
  intros Hrun Hnd Hdisj.
  apply get_model_and_auxiliaries_inv in Hrun
    as (factor & tok0 & m0 & _ & Hf & _ & _ & Hm0 & -> & _ & _).
  exists factor, m0. split_and!; [done..|]. simpl in *.
  intros name i Hin. rewrite prepared_parameters_lookup.
  assert (reached (Model.encoder_parameters m0) i = false) as ->.
  { apply not_true_is_false. intros Hr%reached_elem.
    apply (Hdisj i Hr), list_elem_of_fmap. by exists (name, i). }
  simpl. destruct (Args.train_decoder args); simpl; [done|].
  fold (cross_attention_marker (Args.decoder_name args)).
  destruct (contains _ name) eqn:Hname.
  - assert (reached_unless (cross_attention_marker (Args.decoder_name args))
              (Model.decoder_named_parameters m0) i = false) as ->; [|done].
    apply not_true_is_false. intros (name' & Hin' & Hname')%reached_unless_elem.
    rewrite (NoDup_snd_functional _ name name' i Hnd Hin Hin') in Hname. congruence.
  - assert (reached_unless (cross_attention_marker (Args.decoder_name args))
              (Model.decoder_named_parameters m0) i = true) as ->; [|done].
    apply reached_unless_elem. eauto.
Qed.

Lemma decoder_parameters_freezing_witness :
  NoDup [2; 3; 4]%nat
  ∧ Model.parameters (prepared_model Args.default gpt2_tokenizer gpt2_model) !! 2%nat
    = Some (Param.mk [50257; 768] false)
  ∧ Model.parameters (prepared_model Args.default gpt2_tokenizer gpt2_model) !! 3%nat
    = Some (Param.mk [768; 192] true).
Proof.
  assert (NoDup [2; 3; 4]%nat) as Hnd.
  { apply (bool_decide_unpack _). vm_compute. exact I. }
  split; [exact Hnd|].
  destruct (decoder_parameters_freezing gpt2_library Args.default _ _ _ _ eq_refl)
    as (factor & m0 & _ & [= <-] & _ & Hall).
  - exact Hnd.
  - intros i Hi Hd. simpl in Hi, Hd.
    assert (i < 2)%nat as Hlt.
    { repeat (apply elem_of_cons in Hi as [->|Hi]; [lia|]). by apply elem_of_nil in Hi. }
    repeat (apply elem_of_cons in Hd as [->|Hd]; [lia|]). by apply elem_of_nil in Hd.
  - split.
    + apply (Hall "transformer.wte.weight" 2%nat). left.
    + apply (Hall "transformer.h.0.crossattention.c_attn.weight" 3%nat).
      right. left.
Defined.

(** The hypothesis on shared tensors is needed: a decoder tensor that is
    also an encoder tensor is frozen by the encoder loop, also with
    [--train_decoder] and under a cross-attention name. *)
Lemma decoder_parameters_freezing_shared_tensor :
  get_model_and_auxiliaries (with_model shared_model gpt2_library) args_train_decoder
  = (loading_trace args_train_decoder 4
       (prepared_model args_train_decoder gpt2_tokenizer shared_model),
     Ok (prepared_model args_train_decoder gpt2_tokenizer shared_model,
         prepared_tokenizer gpt2_tokenizer, FeatureExtractorRef 1))
  ∧ ¬ (∀ (name : string) (i : nat),
         (name, i) ∈ Model.decoder_named_parameters
                       (prepared_model args_train_decoder gpt2_tokenizer shared_model) →
         Model.parameters (prepared_model args_train_decoder gpt2_tokenizer shared_model)
           !! i
         = if Args.train_decoder args_train_decoder then Model.parameters shared_model !! i
           else if contains
                     (if contains "xglm" (Args.decoder_name args_train_decoder)
                         || contains "opt" (Args.decoder_name args_train_decoder)
                      then "encoder_attn" else "crossattention") name
                then Model.parameters shared_model !! i
                else Param.freeze <$> Model.parameters shared_model !! i).
Proof.
  split; [reflexivity|]. intros H.
  specialize (H "transformer.h.0.crossattention.c_attn.weight" 1%nat
                (list_elem_of_here _ _)).
  vm_compute in H. discriminate H.
Qed.

(** C4. [model.config.rag] is always [not args.disable_rag];
    [model.config.k] and [model.config.retrieval_encoder] are set from the
    arguments when [args.disable_rag] is [False] and are left as loaded
    when it is [True]. *)
Theorem config_rag_fields (L : Library.t) (args : Args.t)
    (tr : list event) (m : Model.t) (tok : Tokenizer.t) (fe : FeatureExtractor) :
  get_model_and_auxiliaries L args = (tr, Ok (m, tok, fe)) →
  ∃ factor m0,
    dict_get PARAMS2REDUCE_FACTOR (Args.attention_size args) = Some factor
    ∧ Library.from_encoder_decoder_pretrained L
        (Args.encoder_name args) (Args.decoder_name args) factor = Ok m0
    ∧ Config.rag (Model.config m) = negb (Args.disable_rag args)
    ∧ (Args.disable_rag args = false →
       Config.k (Model.config m) = Some (Args.k args)
       ∧ Config.retrieval_encoder (Model.config m) = Some (Args.retrieval_encoder args))
    ∧ (Args.disable_rag args = true →
       Config.k (Model.config m) = Config.k (Model.config m0)
       ∧ Config.retrieval_encoder (Model.config m)
         = Config.retrieval_encoder (Model.config m0)).
Proof.
  intros Hrun.
  apply get_model_and_auxiliaries_inv in Hrun
    as (factor & tok0 & m0 & _ & Hf & _ & _ & Hm0 & -> & _ & _).
  exists factor, m0. split_and!; [done..| |]; simpl; by intros ->.
Qed.

Lemma config_rag_fields_witness :
  Config.rag (prepared_config Args.default gpt2_tokenizer gpt2_config) = true
  ∧ Config.k (prepared_config Args.default gpt2_tokenizer gpt2_config) = Some 4
  ∧ Config.k (prepared_config args_small gpt2_tokenizer gpt2_config) = None.
Proof.
  destruct (config_rag_fields gpt2_library Args.default _ _ _ _ eq_refl)
    as (f1 & m1 & _ & [= <-] & Hrag & Hon & _).
  destruct (config_rag_fields gpt2_library args_small _ _ _ _ eq_refl)
    as (f2 & m2 & _ & [= <-] & _ & _ & Hoff).
  split; [exact Hrag|]. split; [exact (proj1 (Hon eq_refl)) | exact (proj1 (Hoff eq_refl))].
Defined.

(** C10. The tokenizer's [pad_token] is ['!'] and its [eos_token] is
    ['.']; [model.config] holds the ids of these two tokens, the
    decoder's vocabulary size, no decoder start token and a maximal length
    of 25. *)
Theorem tokens_and_config (L : Library.t) (args : Args.t)
    (tr : list event) (m : Model.t) (tok : Tokenizer.t) (fe : FeatureExtractor) :
  get_model_and_auxiliaries L args = (tr, Ok (m, tok, fe)) →
  Tokenizer.pad_token tok = Some "!"
  ∧ Tokenizer.eos_token tok = Some "."
  ∧ Config.pad_token_id (Model.config m) = Tokenizer.pad_token_id tok
  ∧ Config.eos_token_id (Model.config m) = Tokenizer.eos_token_id tok
  ∧ Config.vocab_size (Model.config m)
    = DecoderConfig.vocab_size (Config.decoder (Model.config m))
  ∧ Config.decoder_start_token_id (Model.config m) = None
  ∧ Config.max_length (Model.config m) = 25.
Proof.
  intros Hrun.
  apply get_model_and_auxiliaries_inv in Hrun
    as (factor & tok0 & m0 & _ & _ & _ & _ & _ & -> & -> & _).
  split_and!; reflexivity.
Qed.

Lemma tokens_and_config_witness :
  Tokenizer.pad_token (prepared_tokenizer gpt2_tokenizer) = Some "!"
  ∧ Config.pad_token_id (prepared_config Args.default gpt2_tokenizer gpt2_config) = Some 0
  ∧ Config.eos_token_id (prepared_config Args.default gpt2_tokenizer gpt2_config) = Some 13
  ∧ Config.vocab_size (prepared_config Args.default gpt2_tokenizer gpt2_config) = 50257.
Proof.
  destruct (tokens_and_config gpt2_library Args.default _ _ _ _ eq_refl)
    as (Hpad & _ & Hpid & Heid & Hv & _ & _).
  split_and!; [exact Hpad | exact Hpid | exact Heid | exact Hv].
Defined.

(** C6. A run that returns has made, in this order: the three
    registrations of the decoder family (XGLM if ['xglm'] is in
    [args.decoder_name], else OPT if ['opt'] is, else GPT-2), the two
    registrations of SmallCap, [CLIPFeatureExtractor.from_pretrained
    (args.encoder_name)], [AutoTokenizer.from_pretrained(args.decoder_name)]
    and [SmallCap.from_encoder_decoder_pretrained(args.encoder_name,
    args.decoder_name)] with [cross_attention_reduce_factor =
    PARAMS2REDUCE_FACTOR[args.attention_size]]; what it returns comes from
    the answers of these three loads. *)
Theorem pretrained_components_loaded (L : Library.t) (args : Args.t)
    (tr : list event) (m : Model.t) (tok : Tokenizer.t) (fe : FeatureExtractor) :
  get_model_and_auxiliaries L args = (tr, Ok (m, tok, fe)) →
  ∃ factor tok0 m0 message,
    getitem PARAMS2REDUCE_FACTOR (Args.attention_size args) = Ok factor
    ∧ tr = [ AutoConfig_register
               (family_model_type (family_of (Args.decoder_name args)))
               (family_config (family_of (Args.decoder_name args)));
             AutoModel_register
               (family_config (family_of (Args.decoder_name args)))
               (family_model (family_of (Args.decoder_name args)));
             AutoModelForCausalLM_register
               (family_config (family_of (Args.decoder_name args)))
               (family_model (family_of (Args.decoder_name args)));
             AutoConfig_register "smallcap" SmallCapConfig;
             AutoModel_register SmallCapConfig SmallCap;
             CLIPFeatureExtractor_from_pretrained (Args.encoder_name args);
             AutoTokenizer_from_pretrained (Args.decoder_name args);
             SmallCap_from_encoder_decoder_pretrained
               (Args.encoder_name args) (Args.decoder_name args) factor;
             print message ]
    ∧ Library.feature_extractor_from_pretrained L (Args.encoder_name args) = Ok fe
    ∧ Library.tokenizer_from_pretrained L (Args.decoder_name args) = Ok tok0
    ∧ Library.from_encoder_decoder_pretrained L
        (Args.encoder_name args) (Args.decoder_name args) factor = Ok m0
    ∧ Tokenizer.convert_tokens_to_ids tok = Tokenizer.convert_tokens_to_ids tok0
    ∧ Config.decoder (Model.config m) = Config.decoder (Model.config m0)
    ∧ Model.encoder_parameters m = Model.encoder_parameters m0
    ∧ Model.decoder_named_parameters m = Model.decoder_named_parameters m0
    ∧ length (Model.parameters m) = length (Model.parameters m0).
Proof.
  intros Hrun.
  apply get_model_and_auxiliaries_inv in Hrun
    as (factor & tok0 & m0 & _ & Hf & Hfe & Htok & Hm0 & -> & -> & ->).
  exists factor, tok0, m0. eexists. unfold getitem. rewrite Hf.
  split_and!; try done. apply prepared_parameters_length.
Qed.

Lemma pretrained_components_loaded_witness :
  family_of "facebook/xglm-564M" = XGLM
  ∧ family_of "facebook/opt-350m" = OPT
  ∧ family_of "gpt2" = GPT2
  ∧ ∃ message,
      trace (get_model_and_auxiliaries gpt2_library Args.default)
      = [ AutoConfig_register "this_gpt2" ThisGPT2Config;
          AutoModel_register ThisGPT2Config ThisGPT2LMHeadModel;
          AutoModelForCausalLM_register ThisGPT2Config ThisGPT2LMHeadModel;
          AutoConfig_register "smallcap" SmallCapConfig;
          AutoModel_register SmallCapConfig SmallCap;
          CLIPFeatureExtractor_from_pretrained "openai/clip-vit-base-patch32";
          AutoTokenizer_from_pretrained "gpt2";
          SmallCap_from_encoder_decoder_pretrained
            "openai/clip-vit-base-patch32" "gpt2" 4;
          print message ].
Proof.
  split_and!; [reflexivity..|].
  destruct (pretrained_components_loaded gpt2_library Args.default _ _ _ _ eq_refl)
    as (factor & tok0 & m0 & message & [= <-] & Htr & _).
  exists message. exact Htr.
Defined.

(** ** The attention size *)

(** The lookup in [PARAMS2REDUCE_FACTOR] decides on the value of the key. *)
Lemma dict_get_PARAMS2REDUCE_FACTOR (a : pynum) :
  dict_get PARAMS2REDUCE_FACTOR a
  = match num_value a with
    | None => None
    | Some q =>
        if Qeq_bool 28 q then Some 1
        else if Qeq_bool 14 q then Some 2
        else if Qeq_bool 7 q then Some 4
        else if Qeq_bool (7 # 2) q then Some 8
        else if Qeq_bool (7 # 4) q then Some 16
        else None
    end.
Proof.
  destruct a as [z|[q|s|]].
  4: reflexivity. 3: reflexivity. 2: reflexivity.
  assert (∀ c : Z, Z.eqb c z = Qeq_bool (inject_Z c) (inject_Z z)) as Hz.
  { intros c. apply eq_true_iff_eq. rewrite Z.eqb_eq, Qeq_bool_iff.
    symmetry. apply inject_Z_injective. }
  unfold PARAMS2REDUCE_FACTOR, dict_get, num_eqb, float_eqb, num_value.
  rewrite !Hz.

  reflexivity.
Qed.

Lemma dict_get_unlisted (a : pynum) :
  ¬ listed_size a → dict_get PARAMS2REDUCE_FACTOR a = None.
Proof.
  intros Hno. rewrite dict_get_PARAMS2REDUCE_FACTOR.
  destruct (num_value a) as [q|] eqn:Hq; [|done].
  assert (∀ c, Exists (Qeq c) ATTENTION_SIZES → Qeq_bool c q = false)%Q as Hc.
  { intros c Hc. apply not_true_is_false. intros Heq%Qeq_bool_iff.
    apply Hno. exists q. split; [done|].
    eapply Exists_impl; [exact Hc|]. intros d Hd. by rewrite <- Heq. }
  unfold ATTENTION_SIZES in Hc.
  rewrite !Hc; [done|..]; rewrite !Exists_cons; auto 10 using Qeq_refl.
Qed.

Lemma dict_get_listed (a : pynum) (q : Q) :
  num_value a = Some q → Exists (Qeq q) ATTENTION_SIZES →
  ∃ f, dict_get PARAMS2REDUCE_FACTOR a = Some f ∧ (inject_Z f == 28 / q)%Q.
Proof.
  intros Hq Hin. rewrite dict_get_PARAMS2REDUCE_FACTOR, Hq.
  unfold ATTENTION_SIZES in Hin. rewrite !Exists_cons, Exists_nil in Hin.
  assert (∀ c d, q == c → Qeq_bool d q = Qeq_bool d c)%Q as Hc.
  { intros c d Hc. apply eq_true_iff_eq. rewrite !Qeq_bool_iff. by rewrite Hc. }
  destruct Hin as [H|[H|[H|[H|[H|[]]]]]];
    rewrite !(Hc _ _ H); eexists; (split; [reflexivity|]);
    rewrite H; reflexivity.
Qed.

(** C8. With an [args.attention_size] that is none of 28, 14, 7, 3.5 and
    1.75 the function does not return: the lookup raises [KeyError], after
    the registrations and before any pretrained component is loaded. With
    one of these five values, [cross_attention_reduce_factor] is
    [28 / args.attention_size], and it is the factor the model is loaded
    with. *)
Theorem attention_size_factor (L : Library.t) (args : Args.t) :
  (¬ listed_size (Args.attention_size args) →
   (∀ v, outcome (get_model_and_auxiliaries L args) ≠ Ok v)
   ∧ (registrations_ok L (Args.decoder_name args) →
      get_model_and_auxiliaries L args
      = (registrations (Args.decoder_name args),
         Raise (KeyError (KNum (Args.attention_size args))))))
  ∧ (∀ q, num_value (Args.attention_size args) = Some q →
          Exists (Qeq q) ATTENTION_SIZES →
     ∃ f, getitem PARAMS2REDUCE_FACTOR (Args.attention_size args) = Ok f
          ∧ (inject_Z f == 28 / q)%Q
          ∧ ∀ tr r, get_model_and_auxiliaries L args = (tr, Ok r) →
              SmallCap_from_encoder_decoder_pretrained
                (Args.encoder_name args) (Args.decoder_name args) f ∈ tr).
Proof.
  split.
  - intros Hno%dict_get_unlisted. split.
    + intros [[m tok] fe] Hv.
      destruct (get_model_and_auxiliaries L args) as [tr r] eqn:Hrun.
      simpl in Hv. subst r.
      apply get_model_and_auxiliaries_inv in Hrun as (f & ? & ? & _ & Hf & _).
      congruence.
    + intros (H1 & H2 & H3 & H4 & H5).
      unfold get_model_and_auxiliaries, registrations, getitem, family_of in *.
      rewrite Hno.
      destruct (contains "xglm" _); [|destruct (contains "opt" _)]; simpl in *;
        rewrite H1, H2, H3, H4, H5; reflexivity.
  - intros q Hq Hin. destruct (dict_get_listed _ q Hq Hin) as (f & Hf & Hdiv).
    exists f. unfold getitem. rewrite Hf. split_and!; [done..|].
    intros tr [[m tok] fe] Hrun.
    apply get_model_and_auxiliaries_inv in Hrun
      as (f' & ? & ? & _ & Hf' & _ & _ & _ & _ & _ & ->).
    assert (f' = f) as -> by congruence.
    unfold loading_trace. apply elem_of_app. right.
    do 2 apply list_elem_of_further. apply list_elem_of_here.
Qed.

Lemma attention_size_factor_witness :
  get_model_and_auxiliaries gpt2_library args_unsupported
  = (registrations "gpt2", Raise (KeyError (KNum (PyFloat (FFinite 5)))))
  ∧ ∃ f, getitem PARAMS2REDUCE_FACTOR (PyFloat (FFinite (7 # 2))) = Ok f
         ∧ (inject_Z f == 28 / (7 # 2))%Q
         ∧ SmallCap_from_encoder_decoder_pretrained
             "openai/clip-vit-base-patch32" "gpt2" f
           ∈ trace (get_model_and_auxiliaries gpt2_library args_small).
Proof.
  split.
  - apply (attention_size_factor gpt2_library args_unsupported).
    + intros (q & [= <-] & Hin). unfold ATTENTION_SIZES in Hin.
      rewrite !Exists_cons, Exists_nil in Hin.
      destruct Hin as [H|[H|[H|[H|[H|[]]]]]]; discriminate H.
    + repeat split.
  - destruct (proj2 (attention_size_factor gpt2_library args_small) (7 # 2)%Q)
      as (f & Hf & Hdiv & Htr).
    + reflexivity.
    + unfold ATTENTION_SIZES. rewrite !Exists_cons. do 3 right. left. reflexivity.
    + exists f. split_and!; [exact Hf | exact Hdiv |].
      eapply Htr. reflexivity.
Defined.

(** ** Runs of [get_data] *)

Lemma get_data_run (L : Library.t) (tokenizer : Tokenizer.t) (max_length : Z)
    (args : Args.t) (data : list (string * list Row)) (rows : list Row) :
  Library.load_data L (Args.annotations_path args) (Args.captions_path args) = Ok data →
  dict_get_str data "train" = Some rows →
  Library.dataset_init L (training_dataset args tokenizer max_length rows) = Ok tt →
  get_data L tokenizer max_length args
  = ([ load_data_for_training (Args.annotations_path args) (Args.captions_path args);
       Dataset_init (training_dataset args tokenizer max_length rows) ],
     Ok (training_dataset args tokenizer max_length rows)).
Proof.
  intros Hdata Hrows Hinit. unfold get_data, getitem_str, training_dataset in *.
  rewrite Hdata. unfold bind at 1, call at 1. rewrite Hrows.
  destruct (Args.ablation_visual args); simpl; rewrite Hinit; reflexivity.
Qed.

Lemma get_data_inv (L : Library.t) (tokenizer : Tokenizer.t) (max_length : Z)
    (args : Args.t) (tr : list event) (d : Dataset) :
  get_data L tokenizer max_length args = (tr, Ok d) →
  ∃ data rows,
    Library.load_data L (Args.annotations_path args) (Args.captions_path args) = Ok data
    ∧ dict_get_str data "train" = Some rows
    ∧ Library.dataset_init L (training_dataset args tokenizer max_length rows) = Ok tt
    ∧ d = training_dataset args tokenizer max_length rows
    ∧ tr = [ load_data_for_training (Args.annotations_path args) (Args.captions_path args);
             Dataset_init d ].
Proof.
  intros Hrun.
  assert (∃ data rows,
    Library.load_data L (Args.annotations_path args) (Args.captions_path args) = Ok data
    ∧ dict_get_str data "train" = Some rows
    ∧ Library.dataset_init L (training_dataset args tokenizer max_length rows) = Ok tt)
    as (data & rows & Hdata & Hrows & Hinit).
  { revert Hrun. unfold get_data, getitem_str, training_dataset, bind, call, lift, ret.
    destruct (Library.load_data _ _ _) as [data|] eqn:Hdata; [|discriminate].
    destruct (dict_get_str data "train") as [rows|] eqn:Hrows; [|discriminate].
    destruct (Args.ablation_visual args);
      (destruct (Library.dataset_init _ _) as [[]|] eqn:Hinit; [|discriminate]);
      intros _; exists data, rows; split_and!; [done..|]; exact Hinit. }
  rewrite (get_data_run L _ _ _ data rows Hdata Hrows Hinit) in Hrun.
  injection Hrun as <- <-. exists data, rows. done.
Qed.

(** C3. The dataset [get_data] returns is [AblationFeaturesDataset] when
    [args.ablation_visual] is set and [TrainDataset] otherwise, built in
    both cases from the ['train'] rows, [args.features_dir] joined with
    ['train.hdf5'], the tokenizer, [rag = not args.disable_rag],
    [args.template_path], [k = args.k] and the given maximal caption
    length; its examples carry the [args.k] retrieved captions exactly
    when [--disable_rag] is not given. *)
Theorem get_data_dataset (L : Library.t) (tokenizer : Tokenizer.t) (max_length : Z)
    (args : Args.t) (tr : list event) (d : Dataset) :
  get_data L tokenizer max_length args = (tr, Ok d) →
  ∃ data rows,
    Library.load_data L (Args.annotations_path args) (Args.captions_path args) = Ok data
    ∧ getitem_str data "train" = Ok rows
    ∧ d = (if Args.ablation_visual args then AblationFeaturesDataset else TrainDataset)
            {| DatasetArgs.df := pd_DataFrame rows;
               DatasetArgs.features_path :=
                 path_join (Args.features_dir args) "train.hdf5";
               DatasetArgs.tokenizer := tokenizer;
               DatasetArgs.rag := negb (Args.disable_rag args);
               DatasetArgs.template_path := Args.template_path args;
               DatasetArgs.k := Args.k args;
               DatasetArgs.max_caption_length := max_length |}
    ∧ (carries_retrieved_captions d = true ↔ Args.disable_rag args = false)
    ∧ retrieved_captions d = Args.k args
    ∧ tr = [ load_data_for_training (Args.annotations_path args) (Args.captions_path args);
             Dataset_init d ].
Proof.
  intros Hrun.
  apply get_data_inv in Hrun as (data & rows & Hdata & Hrows & _ & -> & ->).
  exists data, rows. unfold getitem_str. rewrite Hrows.
  split_and!; try done; unfold training_dataset;
    destruct (Args.ablation_visual args); simpl; try done;
    apply negb_true_iff.
Qed.

Lemma get_data_dataset_witness :
  get_data gpt2_library gpt2_tokenizer 25 args_small
  = ([ load_data_for_training "/annotations.json" "/captions.json";
       Dataset_init (training_dataset args_small gpt2_tokenizer 25 ["row 1"; "row 2"]) ],
     Ok (training_dataset args_small gpt2_tokenizer 25 ["row 1"; "row 2"]))
  ∧ training_dataset args_small gpt2_tokenizer 25 ["row 1"; "row 2"]
    = AblationFeaturesDataset
        {| DatasetArgs.df := pd_DataFrame ["row 1"; "row 2"];
           DatasetArgs.features_path := "/features/train.hdf5";
           DatasetArgs.tokenizer := gpt2_tokenizer;
           DatasetArgs.rag := false;
           DatasetArgs.template_path := "/template.txt";
           DatasetArgs.k := 4;
           DatasetArgs.max_caption_length := 25 |}.
Proof.
  split; [reflexivity|].
  destruct (get_data_dataset gpt2_library gpt2_tokenizer 25 args_small _ _ eq_refl)
    as (data & rows & [= <-] & [= <-] & Hd & _).
  exact Hd.
Defined.

(** ** Runs of [main] *)

(** [os.path.join] of the output directory is a concatenation: the name
    of a run never starts with a separator. *)
Lemma output_dir_join (args : Args.t) :
  path_join "/kaggle/working/" (run_name args) = "/kaggle/working/" +:+ run_name args.
Proof. unfold run_name. by destruct (Args.disable_rag args). Qed.

Lemma append_nil_r (s : string) : s +:+ "" = s.
Proof.
  induction s as [|a s IH]; [done|].
  change (String a (s +:+ "") = String a s). by rewrite IH.
Qed.

Lemma run_name_format (args : Args.t) :
  (if Args.ablation_visual args then
     (if Args.disable_rag args then "norag" else "rag") +:+ "_"
       +:+ format_num (Args.attention_size args) +:+ "M_"
       +:+ Args.decoder_name args +:+ "_ablation"
   else
     (if Args.disable_rag args then "norag" else "rag") +:+ "_"
       +:+ format_num (Args.attention_size args) +:+ "M_"
       +:+ Args.decoder_name args)
  = run_name args.
Proof.
  unfold run_name. destruct (Args.ablation_visual args); [done|].
  by rewrite append_nil_r.
Qed.


(** [main] is the two functions above followed by the three calls of
    training. *)
Lemma main_run (L : Library.t) (args : Args.t) (tr1 tr2 : list event)
    (m : Model.t) (tok : Tokenizer.t) (fe : FeatureExtractor) (d : Dataset) :
  get_model_and_auxiliaries L args = (tr1, Ok (m, tok, fe)) →
  get_data L tok (Config.max_length (Model.config m)) args = (tr2, Ok d) →
  main L args
  = ((tr1 ++ tr2 ++ trace (start_training L (trainer_of L args m d fe)))%list,
     outcome (start_training L (trainer_of L args m d fe))).
Proof.
  intros Hgm Hgd. unfold main. rewrite Hgm. unfold bind at 1. rewrite Hgd.
  unfold bind at 1. rewrite run_name_format, output_dir_join.
  fold (training_arguments L args). fold (trainer_of L args m d fe).
  change (bind (call (Seq2SeqTrainingArguments (training_arguments L args)) _) _)
    with (start_training L (trainer_of L args m d fe)).
  destruct (start_training _ _) as [tr3 r]. simpl. by rewrite app_assoc.
Qed.

Lemma main_raise_loading (L : Library.t) (args : Args.t) (tr1 : list event) (e : exn) :
  get_model_and_auxiliaries L args = (tr1, Raise e) → main L args = (tr1, Raise e).
Proof. intros Hgm. unfold main. by rewrite Hgm. Qed.

Lemma main_raise_data (L : Library.t) (args : Args.t) (tr1 tr2 : list event)
    (m : Model.t) (tok : Tokenizer.t) (fe : FeatureExtractor) (e : exn) :
  get_model_and_auxiliaries L args = (tr1, Ok (m, tok, fe)) →
  get_data L tok (Config.max_length (Model.config m)) args = (tr2, Raise e) →
  main L args = ((tr1 ++ tr2)%list, Raise e).
Proof. intros Hgm Hgd. unfold main. rewrite Hgm. unfold bind at 1. by rewrite Hgd. Qed.

Lemma start_training_inv (L : Library.t) (t : Trainer.t) (tr : list event) :
  start_training L t = (tr, Ok tt) →
  Library.training_arguments_init L (Trainer.args t) = Ok tt
  ∧ Library.trainer_init L t = Ok tt
  ∧ Library.train L t = Ok tt
  ∧ tr = [ Seq2SeqTrainingArguments (Trainer.args t); Seq2SeqTrainer t; Trainer_train t ].
Proof.
  unfold start_training, bind, call.
  destruct (Library.training_arguments_init L _) as [[]|]; [|discriminate].
  destruct (Library.trainer_init L t) as [[]|]; [|discriminate].
  destruct (Library.train L t) as [[]|]; [|discriminate].
  by intros [= <-].
Qed.

Lemma start_training_events (L : Library.t) (t : Trainer.t) (e : event) :
  e ∈ trace (start_training L t) →
  e = Seq2SeqTrainingArguments (Trainer.args t) ∨ e = Seq2SeqTrainer t ∨ e = Trainer_train t.
Proof.
  unfold start_training, bind, call, trace.
  destruct (Library.training_arguments_init L _) as [[]|];
    [destruct (Library.trainer_init L t) as [[]|];
       [destruct (Library.train L t) as [[]|]|]|];
    simpl; rewrite ?elem_of_cons, ?elem_of_nil; tauto.
Qed.

(** Before training, no call belongs to training. *)
Lemma get_model_and_auxiliaries_calls (L : Library.t) (args : Args.t) :
  Forall (fun e => is_training_call e = false) (trace (get_model_and_auxiliaries L args)).
Proof.
  unfold get_model_and_auxiliaries, getitem, bind, call, lift, ret, trace.
  destruct (dict_get _ _) as [factor|];
    (destruct (contains "xglm" _); [|destruct (contains "opt" _)]);
    repeat match goal with
           | |- context [match ?r with Ok _ => _ | Raise _ => _ end] =>
               destruct r as [?|?]
           end;
    simpl; repeat constructor.
Qed.

Lemma get_data_calls (L : Library.t) (tok : Tokenizer.t) (max_length : Z) (args : Args.t) :
  Forall (fun e => is_training_call e = false) (trace (get_data L tok max_length args)).
Proof.
  unfold get_data, getitem_str, bind, call, lift, ret, trace.
  destruct (Library.load_data _ _ _) as [data|]; [|repeat constructor].
  destruct (dict_get_str data "train") as [rows|]; [|repeat constructor].
  destruct (Args.ablation_visual args);
    destruct (Library.dataset_init _ _) as [[]|]; simpl; repeat constructor.
Qed.

(** Whatever the libraries answer, the training arguments [main] builds,
    if it comes to build them, are [training_arguments]. *)
Lemma main_training_arguments (L : Library.t) (args : Args.t) (kw : TrainingArguments.t) :
  Seq2SeqTrainingArguments kw ∈ trace (main L args) → kw = training_arguments L args.
Proof.
  pose proof (get_model_and_auxiliaries_calls L args) as H1.
  destruct (get_model_and_auxiliaries L args) as [tr1 [[[m tok] fe]|e]] eqn:Hgm.
  2: { rewrite (main_raise_loading L args tr1 e Hgm). simpl in *. intros Hin.
       by apply (proj1 (Forall_forall _ _) H1) in Hin. }
  pose proof (get_data_calls L tok (Config.max_length (Model.config m)) args) as H2.
  destruct (get_data L tok _ args) as [tr2 [d|e]] eqn:Hgd.
  2: { rewrite (main_raise_data L args tr1 tr2 m tok fe e Hgm Hgd). simpl in *.
       intros [Hin|Hin]%elem_of_app.
       - by apply (proj1 (Forall_forall _ _) H1) in Hin.
       - by apply (proj1 (Forall_forall _ _) H2) in Hin. }
  rewrite (main_run L args tr1 tr2 m tok fe d Hgm Hgd). simpl in *.
  intros [Hin|[Hin|Hin]%elem_of_app]%elem_of_app.
  - by apply (proj1 (Forall_forall _ _) H1) in Hin.
  - by apply (proj1 (Forall_forall _ _) H2) in Hin.
  - apply start_training_events in Hin as [Hin|[Hin|Hin]]; by simplify_eq.
Qed.

Lemma no_train_before (l : list event) :
  Forall (fun e => is_training_call e = false) l → List.filter is_train l = [].
Proof.
  induction 1 as [|e l He _ IH]; [done|]. simpl. rewrite IH.
  by destruct e.
Qed.

(** C5. A run of [main] that returns is, in this order: the run of
    [get_model_and_auxiliaries], the run of [get_data] on the tokenizer and
    [model.config.max_length], the construction of the training arguments
    and of a [Seq2SeqTrainer] over that model and dataset with the default
    data collator, and one call of [trainer.train()], which is the only
    call of it. *)
Theorem main_order (L : Library.t) (args : Args.t) (tr : list event) :
  main L args = (tr, Ok tt) →
  ∃ tr1 tr2 m tok fe d kw,
    get_model_and_auxiliaries L args = (tr1, Ok (m, tok, fe))
    ∧ get_data L tok (Config.max_length (Model.config m)) args = (tr2, Ok d)
    ∧ tr = (tr1 ++ tr2 ++
            [ Seq2SeqTrainingArguments kw;
              Seq2SeqTrainer
                {| Trainer.model := m;
                   Trainer.args := kw;
                   Trainer.data_collator := Some default_data_collator;
                   Trainer.train_dataset := d;
                   Trainer.tokenizer := fe |};
              Trainer_train
                {| Trainer.model := m;
                   Trainer.args := kw;
                   Trainer.data_collator := Some default_data_collator;
                   Trainer.train_dataset := d;
                   Trainer.tokenizer := fe |} ])%list
    ∧ Forall (fun e => is_training_call e = false) (tr1 ++ tr2)
    ∧ length (List.filter is_train tr) = 1%nat.
Proof.
  intros Hmain.
  pose proof (get_model_and_auxiliaries_calls L args) as H1.
  destruct (get_model_and_auxiliaries L args) as [tr1 [[[m tok] fe]|e]] eqn:Hgm.
  2: { rewrite (main_raise_loading L args tr1 e Hgm) in Hmain. discriminate. }
  pose proof (get_data_calls L tok (Config.max_length (Model.config m)) args) as H2.
  destruct (get_data L tok _ args) as [tr2 [d|e]] eqn:Hgd.
  2: { rewrite (main_raise_data L args tr1 tr2 m tok fe e Hgm Hgd) in Hmain.
       discriminate. }
  rewrite (main_run L args tr1 tr2 m tok fe d Hgm Hgd) in Hmain.
  destruct (start_training L _) as [tr3 r] eqn:Hst. simpl in Hmain, H1, H2.
  injection Hmain as <- ->.
  apply start_training_inv in Hst as (_ & _ & _ & ->).
  exists tr1, tr2, m, tok, fe, d, (training_arguments L args).
  split_and!; [done | done | done | by apply Forall_app |].
  rewrite !List.filter_app, (no_train_before tr1 H1), (no_train_before tr2 H2).
  reflexivity.
Qed.

Lemma main_order_witness :
  main gpt2_library Args.default
  = ((registrations "gpt2" ++
      [ CLIPFeatureExtractor_from_pretrained "openai/clip-vit-base-patch32";
        AutoTokenizer_from_pretrained "gpt2";
        SmallCap_from_encoder_decoder_pretrained "openai/clip-vit-base-patch32" "gpt2" 4;
        print "Training a model with 147648 trainable parameters.";
        load_data_for_training "/kaggle/input/karpathy-splits/dataset_coco.json"
          "/kaggle/working/retrieved_caps_resnet50x64.json";
        Dataset_init
          (training_dataset Args.default (prepared_tokenizer gpt2_tokenizer) 25
             ["row 1"; "row 2"]);
        Seq2SeqTrainingArguments (training_arguments gpt2_library Args.default);
        Seq2SeqTrainer
          (trainer_of gpt2_library Args.default
             (prepared_model Args.default gpt2_tokenizer gpt2_model)
             (training_dataset Args.default (prepared_tokenizer gpt2_tokenizer) 25
                ["row 1"; "row 2"])
             (FeatureExtractorRef 1));
        Trainer_train
          (trainer_of gpt2_library Args.default
             (prepared_model Args.default gpt2_tokenizer gpt2_model)
             (training_dataset Args.default (prepared_tokenizer gpt2_tokenizer) 25
                ["row 1"; "row 2"])
             (FeatureExtractorRef 1)) ])%list,
     Ok tt)
  ∧ length (List.filter is_train (trace (main gpt2_library Args.default))) = 1%nat.
Proof.
  split; [reflexivity|].
  destruct (main_order gpt2_library Args.default _ eq_refl)
    as (tr1 & tr2 & m & tok & fe & d & kw & _ & _ & _ & _ & Hcount).
  exact Hcount.
Defined.

(** C7. The [Seq2SeqTrainingArguments] built in [main] take
    [num_train_epochs] and [save_total_limit] from [args.n_epochs],
    [per_device_train_batch_size] from [args.batch_size],
    [gradient_accumulation_steps] from [args.gradient_steps] and
    [learning_rate] from [args.lr]; [fp16] and [overwrite_output_dir] are
    [True] and both strategies are ['epoch']. [main] builds them as soon as
    the model and the dataset are there. *)
Theorem training_arguments_mirror (L : Library.t) (args : Args.t) :
  (∀ kw, Seq2SeqTrainingArguments kw ∈ trace (main L args) →
     TrainingArguments.num_train_epochs kw = Args.n_epochs args
     ∧ TrainingArguments.per_device_train_batch_size kw = Args.batch_size args
     ∧ TrainingArguments.gradient_accumulation_steps kw = Args.gradient_steps args
     ∧ TrainingArguments.learning_rate kw = Args.lr args
     ∧ TrainingArguments.save_total_limit kw = Args.n_epochs args
     ∧ TrainingArguments.fp16 kw = true
     ∧ TrainingArguments.save_strategy kw = "epoch"
     ∧ TrainingArguments.logging_strategy kw = "epoch"
     ∧ TrainingArguments.overwrite_output_dir kw = true)
  ∧ (∀ tr1 tr2 m tok fe d,
       get_model_and_auxiliaries L args = (tr1, Ok (m, tok, fe)) →
       get_data L tok (Config.max_length (Model.config m)) args = (tr2, Ok d) →
       ∃ kw, Seq2SeqTrainingArguments kw ∈ trace (main L args)).
Proof.
  split.
  - intros kw ->%main_training_arguments. split_and!; reflexivity.
  - intros tr1 tr2 m tok fe d Hgm Hgd. exists (training_arguments L args).
    rewrite (main_run L args tr1 tr2 m tok fe d Hgm Hgd). simpl.
    rewrite !elem_of_app. do 2 right.
    unfold start_training, bind, call, trace.
    destruct (Library.training_arguments_init L _) as [[]|];
      [destruct (Library.trainer_init L _) as [[]|];
         [destruct (Library.train L _) as [[]|]|]|];
      apply list_elem_of_here.
Qed.

Lemma training_arguments_mirror_witness :
  Seq2SeqTrainingArguments
    {| TrainingArguments.num_train_epochs := 10;
       TrainingArguments.per_device_train_batch_size := 64;
       TrainingArguments.gradient_accumulation_steps := 1;
       TrainingArguments.learning_rate :=
         PyFloat (FFinite (7378697629483821 # 73786976294838206464));
       TrainingArguments.fp16 := true;
       TrainingArguments.save_strategy := "epoch";
       TrainingArguments.save_total_limit := 10;
       TrainingArguments.logging_strategy := "epoch";
       TrainingArguments.output_dir := "/kaggle/working/rag_7M_gpt2";
       TrainingArguments.overwrite_output_dir := true |}
    ∈ trace (main gpt2_library Args.default)
  ∧ (∃ kw, Seq2SeqTrainingArguments kw ∈ trace (main gpt2_library Args.default)
           ∧ TrainingArguments.num_train_epochs kw = 10
           ∧ TrainingArguments.save_total_limit kw = 10).
Proof.
  split.
  - do 11 apply list_elem_of_further. apply list_elem_of_here.
  - destruct (proj2 (training_arguments_mirror gpt2_library Args.default)
               _ _ _ _ _ _ eq_refl eq_refl) as (kw & Hkw).
    exists kw. split; [exact Hkw|].
    destruct (proj1 (training_arguments_mirror gpt2_library Args.default) kw Hkw)
      as (He & _ & _ & _ & Hs & _).
    split; [exact He | exact Hs].
Defined.

(** The text of a float depends on its value only. *)
Lemma format_float_Qeq (q c : Q) :
  (q == c)%Q → format_float (FFinite q) = format_float (FFinite c).
Proof. intros H. unfold format_float. by rewrite (Qred_complete _ _ H). Qed.

(** A size the lookup accepts is written as [ATTENTION_SIZE_TEXTS] says. *)
Lemma format_num_listed (a : pynum) (f : Z) :
  dict_get PARAMS2REDUCE_FACTOR a = Some f →
  ∃ key text,
    (key, text) ∈ ATTENTION_SIZE_TEXTS ∧ same_number a key ∧ format_num a = text.
Proof.
  rewrite dict_get_PARAMS2REDUCE_FACTOR.
  destruct a as [z|[q|s|]]; [| |discriminate..]; cbn [num_value].
  - destruct (Qeq_bool 28 (inject_Z z)) eqn:H28.
    { apply Qeq_bool_iff, (inject_Z_injective 28 z) in H28. subst z. intros _.
      exists (PyInt 28), "28". split_and!; [|done..]. apply list_elem_of_here. }
    destruct (Qeq_bool 14 (inject_Z z)) eqn:H14.
    { apply Qeq_bool_iff, (inject_Z_injective 14 z) in H14. subst z. intros _.
      exists (PyInt 14), "14". split_and!; [|done..].
      apply list_elem_of_further, list_elem_of_here. }
    destruct (Qeq_bool 7 (inject_Z z)) eqn:H7.
    { apply Qeq_bool_iff, (inject_Z_injective 7 z) in H7. subst z. intros _.
      exists (PyInt 7), "7". split_and!; [|done..].
      do 2 apply list_elem_of_further. apply list_elem_of_here. }
    destruct (Qeq_bool (7 # 2) (inject_Z z)) eqn:H72.
    { apply Qeq_bool_iff in H72. unfold Qeq, inject_Z in H72. simpl in H72. lia. }
    destruct (Qeq_bool (7 # 4) (inject_Z z)) eqn:H74.
    { apply Qeq_bool_iff in H74. unfold Qeq, inject_Z in H74. simpl in H74. lia. }
    discriminate.
  - destruct (Qeq_bool 28 q) eqn:H28.
    { apply Qeq_bool_iff, Qeq_sym in H28. intros _.
      exists (PyFloat (FFinite 28)), "28.0". split_and!; [|done|].
      - do 3 apply list_elem_of_further. apply list_elem_of_here.
      - cbn [format_num]. by rewrite (format_float_Qeq q 28 H28). }
    destruct (Qeq_bool 14 q) eqn:H14.
    { apply Qeq_bool_iff, Qeq_sym in H14. intros _.
      exists (PyFloat (FFinite 14)), "14.0". split_and!; [|done|].
      - do 4 apply list_elem_of_further. apply list_elem_of_here.
      - cbn [format_num]. by rewrite (format_float_Qeq q 14 H14). }
    destruct (Qeq_bool 7 q) eqn:H7.
    { apply Qeq_bool_iff, Qeq_sym in H7. intros _.
      exists (PyFloat (FFinite 7)), "7.0". split_and!; [|done|].
      - do 5 apply list_elem_of_further. apply list_elem_of_here.
      - cbn [format_num]. by rewrite (format_float_Qeq q 7 H7). }
    destruct (Qeq_bool (7 # 2) q) eqn:H72.
    { apply Qeq_bool_iff, Qeq_sym in H72. intros _.
      exists (PyFloat (FFinite (7 # 2))), "3.5". split_and!; [|done|].
      - do 6 apply list_elem_of_further. apply list_elem_of_here.
      - cbn [format_num]. by rewrite (format_float_Qeq q (7 # 2) H72). }
    destruct (Qeq_bool (7 # 4) q) eqn:H74.
    { apply Qeq_bool_iff, Qeq_sym in H74. intros _.
      exists (PyFloat (FFinite (7 # 4))), "1.75". split_and!; [|done|].
      - do 7 apply list_elem_of_further. apply list_elem_of_here.
      - cbn [format_num]. by rewrite (format_float_Qeq q (7 # 4) H74). }
    discriminate.
Qed.

(** [main] comes to the training arguments only with a supported size. *)
Lemma main_training_arguments_size (L : Library.t) (args : Args.t)
    (kw : TrainingArguments.t) :
  Seq2SeqTrainingArguments kw ∈ trace (main L args) →
  ∃ factor, dict_get PARAMS2REDUCE_FACTOR (Args.attention_size args) = Some factor.
Proof.
  pose proof (get_model_and_auxiliaries_calls L args) as H1.
  destruct (get_model_and_auxiliaries L args) as [tr1 [[[m tok] fe]|e]] eqn:Hgm.
  2: { rewrite (main_raise_loading L args tr1 e Hgm). simpl in *. intros Hin.
       by apply (proj1 (Forall_forall _ _) H1) in Hin. }
  intros _.
  apply get_model_and_auxiliaries_inv in Hgm as (factor & _ & _ & _ & Hf & _).
  by exists factor.
Qed.

(** C9. The output directory of the training arguments is
    ['/kaggle/working/'] joined with
    [{norag|rag}_{attention_size}M_{decoder_name}], followed by [_ablation]
    exactly when [args.ablation_visual] is set, and [norag] exactly when
    [args.disable_rag] is; the attention size is written as Python writes
    it ([7] for the default, [7.0], [3.5], ... for a float of the command
    line); [--experiments_dir] is an option of the parser and
    [args.experiments_dir] has no effect on the run. *)
Theorem output_directory (L : Library.t) (args : Args.t) :
  (∀ kw, Seq2SeqTrainingArguments kw ∈ trace (main L args) →
     ∃ key text,
       (key, text) ∈ ATTENTION_SIZE_TEXTS
       ∧ same_number (Args.attention_size args) key
       ∧ TrainingArguments.output_dir kw
         = path_join "/kaggle/working/"
             ((if Args.disable_rag args then "norag" else "rag")
              +:+ "_" +:+ text
              +:+ "M_" +:+ Args.decoder_name args
              +:+ (if Args.ablation_visual args then "_ablation" else ""))
       ∧ TrainingArguments.output_dir kw
         = "/kaggle/working/"
           +:+ (if Args.disable_rag args then "norag" else "rag")
           +:+ "_" +:+ text
           +:+ "M_" +:+ Args.decoder_name args
           +:+ (if Args.ablation_visual args then "_ablation" else ""))
  ∧ dict_get_str Parser.defaults "experiments_dir" = Some (VStr "/kaggle/working/")
  ∧ (∀ d, main L (Args.set_experiments_dir d args) = main L args).
Proof.
  split_and!.
  - intros kw Hin.
    destruct (main_training_arguments_size L args kw Hin) as [factor Hf].
    apply main_training_arguments in Hin as ->.
    destruct (format_num_listed _ _ Hf) as (key & text & Hkey & Hsame & Htext).
    exists key, text. split_and!; [done..| |].
    + cbn [training_arguments TrainingArguments.output_dir]. unfold run_name.
      rewrite Htext. by destruct (Args.disable_rag args).
    + cbn [training_arguments TrainingArguments.output_dir]. unfold run_name.
      by rewrite Htext.
  - reflexivity.
  - intros d. reflexivity.
Qed.

Lemma output_directory_witness :
  Seq2SeqTrainingArguments (training_arguments gpt2_library args_seven)
    ∈ trace (main gpt2_library args_seven)
  ∧ TrainingArguments.output_dir (training_arguments gpt2_library args_seven)
    = "/kaggle/working/rag_7.0M_gpt2"
  ∧ TrainingArguments.output_dir (training_arguments gpt2_library args_small)
    = "/kaggle/working/norag_3.5M_gpt2_ablation"
  ∧ TrainingArguments.output_dir (training_arguments gpt2_library Args.default)
    = "/kaggle/working/rag_7M_gpt2"
  ∧ (∃ key text,
       (key, text) ∈ ATTENTION_SIZE_TEXTS
       ∧ same_number (PyFloat (FFinite 7)) key
       ∧ TrainingArguments.output_dir (training_arguments gpt2_library args_seven)
         = "/kaggle/working/" +:+ "rag" +:+ "_" +:+ text +:+ "M_" +:+ "gpt2" +:+ "")
  ∧ Args.experiments_dir args_small = "/experiments"
  ∧ main gpt2_library (Args.set_experiments_dir "/kaggle/working/" args_small)
    = main gpt2_library args_small.
Proof.
  assert (Seq2SeqTrainingArguments (training_arguments gpt2_library args_seven)
            ∈ trace (main gpt2_library args_seven)) as Hin.
  { do 11 apply list_elem_of_further. apply list_elem_of_here. }
  split_and!; [exact Hin | reflexivity | reflexivity | reflexivity | | reflexivity |].
  - destruct (proj1 (output_directory gpt2_library args_seven) _ Hin)
      as (key & text & Hkey & Hsame & _ & Hout).
    exists key, text. split_and!; [exact Hkey | exact Hsame | exact Hout].
  - exact (proj2 (proj2 (output_directory gpt2_library args_small)) "/kaggle/working/").
Defined.

(** * Further properties *)

(** ** The parameter store *)

Lemma frozen_if_Some (b : bool) (p0 : Param.t) :
  frozen_if b (Some p0) = Some (if b then Param.freeze p0 else p0).
Proof. by destruct b. Qed.

(** X1. Freezing touches nothing but the flags: a returning run leaves
    the model with as many tensors as were loaded, each of the size it was
    loaded with, and no tensor that was loaded frozen is trainable
    afterwards. *)
Theorem freezing_keeps_tensors (L : Library.t) (args : Args.t)
    (tr : list event) (m : Model.t) (tok : Tokenizer.t) (fe : FeatureExtractor) :
  get_model_and_auxiliaries L args = (tr, Ok (m, tok, fe)) →
  ∃ factor m0,
    dict_get PARAMS2REDUCE_FACTOR (Args.attention_size args) = Some factor
    ∧ Library.from_encoder_decoder_pretrained L
        (Args.encoder_name args) (Args.decoder_name args) factor = Ok m0
    ∧ length (Model.parameters m) = length (Model.parameters m0)
    ∧ ∀ (i : nat) (p0 : Param.t),
        Model.parameters m0 !! i = Some p0 →
        ∃ p, Model.parameters m !! i = Some p
             ∧ Param.size p = Param.size p0
             ∧ (Param.requires_grad p0 = false → Param.requires_grad p = false).
Proof.
  intros Hrun.
  apply get_model_and_auxiliaries_inv in Hrun
    as (factor & tok0 & m0 & _ & Hf & _ & _ & Hm0 & -> & _ & _).
  exists factor, m0. split_and!; [done | done | apply prepared_parameters_length |].
  intros i p0 Hp0. simpl. rewrite prepared_parameters_lookup, Hp0, frozen_if_Some.
  eexists. split; [reflexivity|]. by destruct (_ || _).
Qed.

Lemma freezing_keeps_tensors_witness :
  length (Model.parameters (prepared_model Args.default gpt2_tokenizer gpt2_model)) = 5%nat
  ∧ ∃ p, Model.parameters (prepared_model Args.default gpt2_tokenizer gpt2_model) !! 2%nat
         = Some p
         ∧ Param.size p = [50257; 768].
Proof.
  destruct (freezing_keeps_tensors gpt2_library Args.default _ _ _ _ eq_refl)
    as (factor & m0 & _ & [= <-] & Hlen & Hall).
  split; [exact Hlen|].
  destruct (Hall 2%nat _ eq_refl) as (p & Hp & Hsize & _).
  exists p. split; [exact Hp | exact Hsize].
Defined.

(** X2. A tensor that belongs neither to the encoder nor to the decoder is
    left as loaded, and with [--train_decoder] so is every tensor outside
    the encoder. *)
Theorem other_parameters_untouched (L : Library.t) (args : Args.t)
    (tr : list event) (m : Model.t) (tok : Tokenizer.t) (fe : FeatureExtractor) :
  get_model_and_auxiliaries L args = (tr, Ok (m, tok, fe)) →
  ∃ factor m0,
    dict_get PARAMS2REDUCE_FACTOR (Args.attention_size args) = Some factor
    ∧ Library.from_encoder_decoder_pretrained L
        (Args.encoder_name args) (Args.decoder_name args) factor = Ok m0
    ∧ ∀ i : nat,
        i ∉ Model.encoder_parameters m0 →
        Args.train_decoder args = true ∨ i ∉ (Model.decoder_named_parameters m0).*2 →
        Model.parameters m !! i = Model.parameters m0 !! i.
Proof.
  intros Hrun.
  apply get_model_and_auxiliaries_inv in Hrun
    as (factor & tok0 & m0 & _ & Hf & _ & _ & Hm0 & -> & _ & _).
  exists factor, m0. split_and!; [done..|].
  intros i Henc Hdec. simpl. rewrite prepared_parameters_lookup.
  assert (reached (Model.encoder_parameters m0) i = false) as ->.
  { apply not_true_is_false. by rewrite reached_elem. }
  destruct Hdec as [-> | Hdec]; [done|].
  assert (reached_unless (cross_attention_marker (Args.decoder_name args))
            (Model.decoder_named_parameters m0) i = false) as ->.
  { apply not_true_is_false. intros (name & Hin & _)%reached_unless_elem.
    apply Hdec, list_elem_of_fmap. by exists (name, i). }
  by rewrite andb_false_r.
Qed.

Lemma other_parameters_untouched_witness :
  Model.parameters (prepared_model Args.default gpt2_tokenizer bridged_model) !! 5%nat
  = Some (Param.mk [768; 768] true).
Proof.
  destruct (other_parameters_untouched (with_model bridged_model gpt2_library)
              Args.default _ _ _ _ eq_refl)
    as (factor & m0 & _ & [= <-] & Hall).
  apply (Hall 5%nat).
  - intros Hin. simpl in Hin.
    repeat (apply elem_of_cons in Hin as [[=]|Hin]). by apply elem_of_nil in Hin.
  - right. intros Hin. simpl in Hin.
    repeat (apply elem_of_cons in Hin as [[=]|Hin]). by apply elem_of_nil in Hin.
Defined.

(** ** The number of trainable parameters *)

Lemma element_count_cons (p : Param.t) (ps : list Param.t) :
  element_count (p :: ps)
  = (if Param.requires_grad p then foldr Z.mul 1 (Param.size p) else 0)
    + element_count ps.
Proof.
  unfold element_count. destruct (Param.requires_grad p) eqn:Hp.
  - by rewrite filter_cons_True.
  - rewrite filter_cons_False; [done|]. by rewrite Hp.
Qed.

Lemma product_nonneg (size : list Z) :
  Forall (fun d => (0 ≤ d)%Z) size → (0 ≤ foldr Z.mul 1 size)%Z.
Proof. induction 1 as [|d ds Hd _ IH]; simpl; lia. Qed.

Lemma element_count_nonneg (ps : list Param.t) :
  Forall sized ps → (0 ≤ element_count ps)%Z.
Proof.
  induction 1 as [|p ps [_ Hp] _ IH]; [done|].
  rewrite element_count_cons. pose proof (product_nonneg _ Hp).
  destruct (Param.requires_grad p); lia.
Qed.

Lemma element_count_frozen (ps ps' : list Param.t) :
  Forall2 (fun p p' => p' = p ∨ p' = Param.freeze p) ps ps' →
  Forall sized ps →
  Forall sized ps' ∧ (element_count ps' ≤ element_count ps)%Z.
Proof.
  induction 1 as [|p p' ps ps' Hp _ IH]; intros Hsz; [done|].
  apply Forall_cons in Hsz as [Hd Hsz]. destruct (IH Hsz) as [IH1 IH2].
  rewrite !element_count_cons.
  pose proof (product_nonneg _ (proj2 Hd)).
  destruct Hp as [-> | ->].
  - split; [by constructor | lia].
  - split; [by constructor|]. simpl. destruct (Param.requires_grad p); lia.
Qed.

Lemma prepared_parameters_frozen (args : Args.t) (m0 : Model.t) :
  Forall2 (fun p p' => p' = p ∨ p' = Param.freeze p)
    (Model.parameters m0) (prepared_parameters args m0).
Proof.
  apply Forall2_same_length_lookup. split.
  - by rewrite prepared_parameters_length.
  - intros i p p' Hp. rewrite prepared_parameters_lookup, Hp, frozen_if_Some.
    intros [= <-]. destruct (_ || _); auto.
Qed.

Lemma wrap64_small (z : Z) : (0 ≤ z < 2 ^ 63)%Z → wrap64 z = z.
Proof.
  intros Hz. unfold wrap64.
  rewrite Z.mod_small; [lia|].
  change (2 ^ 64)%Z with (2 * 2 ^ 63)%Z. lia.
Qed.

(** Without 0-dimensional tensors and below [2^63] the sum of numpy is
    the sum of the integers. *)
Lemma num_trainable_params_exact (ps : list Param.t) :
  Forall sized ps → (element_count ps < 2 ^ 63)%Z →
  num_trainable_params ps = PyInt (element_count ps).
Proof.
  intros Hsz Hlt. unfold num_trainable_params, py_sum.
  assert (∀ acc : Z, (0 ≤ acc)%Z → (acc + element_count ps < 2 ^ 63)%Z →
            fold_left np_add
              (map Param.numel (filter (fun p => Param.requires_grad p = true) ps))
              (PyInt acc)
            = PyInt (acc + element_count ps)) as Hgen.
  { clear Hlt. induction Hsz as [|p ps [Hne Hp] Hsz IH]; intros acc Hacc Hlt.
    - unfold element_count. simpl. by rewrite Z.add_0_r.
    - rewrite element_count_cons in *.
      pose proof (product_nonneg _ Hp) as Hprod.
      pose proof (element_count_nonneg ps Hsz) as Hrest.
      destruct (Param.requires_grad p) eqn:Hg.
      + rewrite filter_cons_True by done. cbn [map fold_left].
        assert (Param.numel p = PyInt (foldr Z.mul 1 (Param.size p))) as ->.
        { unfold Param.numel, np_prod. destruct (Param.size p) as [|d ds]; [done|].
          by rewrite wrap64_small by lia. }
        cbn [np_add]. rewrite wrap64_small by lia.
        rewrite IH by lia. f_equal. lia.
      + rewrite filter_cons_False by (by rewrite Hg). rewrite IH by lia. f_equal. }
  rewrite Hgen by lia. done.
Qed.

(** X3. Preparing the model never adds trainable parameters. For a model
    without 0-dimensional tensors whose trainable elements as loaded are
    fewer than [2^63], the number the function reports is the number of
    elements of the trainable tensors of the model it returns, and is at
    most that of the model as loaded. *)
Theorem trainable_parameters_not_added (L : Library.t) (args : Args.t)
    (tr : list event) (m : Model.t) (tok : Tokenizer.t) (fe : FeatureExtractor)
    (factor : Z) (m0 : Model.t) :
  get_model_and_auxiliaries L args = (tr, Ok (m, tok, fe)) →
  dict_get PARAMS2REDUCE_FACTOR (Args.attention_size args) = Some factor →
  Library.from_encoder_decoder_pretrained L
    (Args.encoder_name args) (Args.decoder_name args) factor = Ok m0 →
  Forall (fun p => Param.size p ≠ [] ∧ Forall (fun d => (0 ≤ d)%Z) (Param.size p))
    (Model.parameters m0) →
  (element_count (Model.parameters m0) < 2 ^ 63)%Z →
  num_trainable_params (Model.parameters m) = PyInt (element_count (Model.parameters m))
  ∧ num_trainable_params (Model.parameters m0)
    = PyInt (element_count (Model.parameters m0))
  ∧ (element_count (Model.parameters m) ≤ element_count (Model.parameters m0))%Z
  ∧ print ("Training a model with " +:+ pretty (element_count (Model.parameters m))
           +:+ " trainable parameters.") ∈ tr.
Proof.
  intros Hrun Hf Hm0 Hsz Hlt.
  apply get_model_and_auxiliaries_inv in Hrun
    as (factor' & tok0 & m0' & _ & Hf' & _ & _ & Hm0' & -> & _ & ->).
  assert (factor' = factor) as -> by congruence.
  assert (m0' = m0) as -> by congruence.
  destruct (element_count_frozen _ _ (prepared_parameters_frozen args m0) Hsz)
    as [Hsz' Hle].
  assert (num_trainable_params (prepared_parameters args m0)
          = PyInt (element_count (prepared_parameters args m0))) as Hexact.
  { apply num_trainable_params_exact; [done | lia]. }
  split_and!; [done | by apply num_trainable_params_exact | done |].
  unfold loading_trace. apply elem_of_app. right.
  do 3 apply list_elem_of_further.
  cbn [prepared_model Model.parameters]. rewrite Hexact. apply list_elem_of_here.
Qed.

Lemma trainable_parameters_not_added_witness :
  num_trainable_params (Model.parameters gpt2_model) = PyInt 41105088
  ∧ num_trainable_params
      (Model.parameters (prepared_model Args.default gpt2_tokenizer gpt2_model))
    = PyInt 147648
  ∧ (element_count
       (Model.parameters (prepared_model Args.default gpt2_tokenizer gpt2_model))
     ≤ element_count (Model.parameters gpt2_model))%Z.
Proof.
  split; [reflexivity|]. split; [reflexivity|].
  apply (trainable_parameters_not_added gpt2_library Args.default
           _ _ _ _ 4 gpt2_model eq_refl eq_refl eq_refl).
  - repeat constructor; done.
  - reflexivity.
Defined.

Lemma num_trainable_params_all_frozen (ps : list Param.t) :
  Forall (fun p => Param.requires_grad p = false) ps →
  num_trainable_params ps = PyInt 0.
Proof.
  unfold num_trainable_params.
  induction 1 as [|p ps Hp _ IH]; [done|].
  rewrite filter_cons_False; [done|]. by rewrite Hp.
Qed.

(** X4. The marker is chosen from the name of the decoder, not from the
    names of its parameters: when no decoder parameter carries the marker
    (a GPT-2 decoder whose checkpoint name contains ['opt'], say) and
    [train_decoder] is off, every decoder parameter is frozen; and if the
    model has no tensors outside encoder and decoder, the function returns
    a model with nothing to train and reports 0. *)
Theorem marker_absent_freezes_all (L : Library.t) (args : Args.t)
    (tr : list event) (m : Model.t) (tok : Tokenizer.t) (fe : FeatureExtractor) :
  get_model_and_auxiliaries L args = (tr, Ok (m, tok, fe)) →
  Args.train_decoder args = false →
  (∀ name i, (name, i) ∈ Model.decoder_named_parameters m →
     contains (if contains "xglm" (Args.decoder_name args)
                  || contains "opt" (Args.decoder_name args)
               then "encoder_attn" else "crossattention") name = false) →
  (∀ name i p, (name, i) ∈ Model.decoder_named_parameters m →
     Model.parameters m !! i = Some p → Param.requires_grad p = false)
  ∧ ((∀ i, (i < length (Model.parameters m))%nat →
        i ∈ Model.encoder_parameters m ∨ i ∈ (Model.decoder_named_parameters m).*2) →
     Forall (fun p => Param.requires_grad p = false) (Model.parameters m)
     ∧ num_trainable_params (Model.parameters m) = PyInt 0
     ∧ print "Training a model with 0 trainable parameters." ∈ tr).
Proof.
  intros Hrun Htd Hnames.
  apply get_model_and_auxiliaries_inv in Hrun
    as (factor & tok0 & m0 & _ & _ & _ & _ & _ & -> & _ & ->).
  cbn [prepared_model Model.parameters Model.decoder_named_parameters
       Model.encoder_parameters] in *.
  assert (∀ name i p, (name, i) ∈ Model.decoder_named_parameters m0 →
            prepared_parameters args m0 !! i = Some p →
            Param.requires_grad p = false) as Hdec.
  { intros name i p Hin Hp. rewrite prepared_parameters_lookup in Hp.
    assert (reached_unless (cross_attention_marker (Args.decoder_name args))
              (Model.decoder_named_parameters m0) i = true) as Hr.
    { apply reached_unless_elem. exists name. split; [done|]. by apply (Hnames name i). }
    rewrite Htd, Hr, orb_true_r in Hp.
    destruct (Model.parameters m0 !! i); by simplify_eq/=. }
  split; [exact Hdec|]. intros Hall.
  assert (Forall (fun p => Param.requires_grad p = false) (prepared_parameters args m0))
    as Hfrozen.
  { apply Forall_lookup. intros i p Hp.
    destruct (Hall i (lookup_lt_Some _ _ _ Hp)) as [Hi | Hi].
    - rewrite prepared_parameters_lookup in Hp.
      apply reached_elem in Hi. rewrite Hi in Hp.
      destruct (Model.parameters m0 !! i); by simplify_eq/=.
    - apply list_elem_of_fmap in Hi as ([name j] & -> & Hin).
      by apply (Hdec name j). }
  split_and!; [done | by apply num_trainable_params_all_frozen |].
  unfold loading_trace. apply elem_of_app. right.
  do 3 apply list_elem_of_further.
  cbn [prepared_model Model.parameters].
  rewrite (num_trainable_params_all_frozen _ Hfrozen). apply list_elem_of_here.
Qed.

Lemma marker_absent_freezes_all_witness :
  family_of "adopted-gpt2" = OPT
  ∧ (∃ p, Model.parameters (prepared_model args_adopted gpt2_tokenizer bridged_model)
            !! 3%nat = Some p
          ∧ Param.requires_grad p = false)
  ∧ num_trainable_params
      (Model.parameters (prepared_model args_adopted gpt2_tokenizer gpt2_model))
    = PyInt 0.
Proof.
  assert (∀ name i,
    (name, i) ∈ Model.decoder_named_parameters gpt2_model →
    contains "encoder_attn" name = false) as Hnames.
  { intros name i Hin. simpl in Hin.
    repeat (apply elem_of_cons in Hin as [[= -> ->]|Hin]; [reflexivity|]).
    by apply elem_of_nil in Hin. }
  split; [reflexivity|]. split.
  - destruct (marker_absent_freezes_all (with_model bridged_model gpt2_library)
                args_adopted _ _ _ _ eq_refl eq_refl Hnames) as [Hdec _].
    eexists. split; [reflexivity|].
    apply (Hdec "transformer.h.0.crossattention.c_attn.weight" 3%nat).
    + apply list_elem_of_further, list_elem_of_here.
    + reflexivity.
  - apply (marker_absent_freezes_all gpt2_library args_adopted
             _ _ _ _ eq_refl eq_refl Hnames).
    intros i Hlt. simpl in Hlt.
    destruct i as [|[|[|[|[|i]]]]]; [| | | | |lia]; simpl.
    + left. apply list_elem_of_here.
    + left. apply list_elem_of_further, list_elem_of_here.
    + right. apply list_elem_of_here.
    + right. apply list_elem_of_further, list_elem_of_here.
    + right. do 2 apply list_elem_of_further. apply list_elem_of_here.
Defined.

(** ** Running the function on its own result *)

Lemma prepared_parameters_idemp (args : Args.t) (tok0 : Tokenizer.t) (m0 : Model.t) :
  prepared_parameters args (prepared_model args tok0 m0) = prepared_parameters args m0.
Proof.
  apply list_eq. intros i.
  rewrite !prepared_parameters_lookup. simpl.
  rewrite prepared_parameters_lookup, frozen_if_orb. by rewrite orb_diag.
Qed.

Lemma prepared_model_idemp (args : Args.t) (tok0 : Tokenizer.t) (m0 : Model.t) :
  prepared_model args (prepared_tokenizer tok0) (prepared_model args tok0 m0)
  = prepared_model args tok0 m0.
Proof.
  unfold prepared_model at 1. rewrite prepared_parameters_idemp.
  unfold prepared_model, prepared_config. simpl.
  by destruct (Args.disable_rag args).
Qed.

(** X5. The preparation is idempotent: when the libraries hand back the
    tokenizer and the model that a run returned (a checkpoint saved after
    it), a second run with the same arguments returns them unchanged. *)
Theorem rerun_returns_same (L L' : Library.t) (args : Args.t)
    (tr : list event) (m : Model.t) (tok : Tokenizer.t) (fe fe' : FeatureExtractor)
    (factor : Z) :
  get_model_and_auxiliaries L args = (tr, Ok (m, tok, fe)) →
  registrations_ok L' (Args.decoder_name args) →
  dict_get PARAMS2REDUCE_FACTOR (Args.attention_size args) = Some factor →
  Library.feature_extractor_from_pretrained L' (Args.encoder_name args) = Ok fe' →
  Library.tokenizer_from_pretrained L' (Args.decoder_name args) = Ok tok →
  Library.from_encoder_decoder_pretrained L'
    (Args.encoder_name args) (Args.decoder_name args) factor = Ok m →
  get_model_and_auxiliaries L' args = (tr, Ok (m, tok, fe')).
Proof.
  intros Hrun Hreg Hf Hfe Htok Hm.
  apply get_model_and_auxiliaries_inv in Hrun
    as (factor' & tok0 & m0 & _ & Hf' & _ & _ & _ & -> & -> & ->).
  assert (factor' = factor) as -> by congruence.
  rewrite (get_model_and_auxiliaries_run L' args factor fe' _ _ Hreg Hf Hfe Htok Hm).
  rewrite prepared_model_idemp. reflexivity.
Qed.

Lemma rerun_returns_same_witness :
  get_model_and_auxiliaries checkpoint_library Args.default
  = (loading_trace Args.default 4 (prepared_model Args.default gpt2_tokenizer gpt2_model),
     Ok (prepared_model Args.default gpt2_tokenizer gpt2_model,
         prepared_tokenizer gpt2_tokenizer, FeatureExtractorRef 2)).
Proof.
  apply (rerun_returns_same gpt2_library checkpoint_library Args.default
           _ _ _ (FeatureExtractorRef 1) (FeatureExtractorRef 2) 4 eq_refl);
    [repeat split | reflexivity..].
Defined.

(** ** The reduce factor *)

Lemma Qeq_bool_congr (c d q : Q) : (q == c)%Q → Qeq_bool d q = Qeq_bool d c.
Proof. intros Hc. apply eq_true_iff_eq. rewrite !Qeq_bool_iff. by rewrite Hc. Qed.

(** X6. The lookup of the reduce factor succeeds exactly on the numbers
    whose product with one of the factors 1, 2, 4, 8, 16 is 28, and gives
    that factor: the [int] 7 and the [float] 7.0 get the same factor, and
    an infinity or a NaN gets none. *)
Theorem reduce_factor_lookup (a : pynum) (f : Z) :
  dict_get PARAMS2REDUCE_FACTOR a = Some f
  ↔ ∃ q, num_value a = Some q ∧ f ∈ [1; 2; 4; 8; 16] ∧ (q * inject_Z f == 28)%Q.
Proof.
  rewrite dict_get_PARAMS2REDUCE_FACTOR. split.
  - destruct (num_value a) as [q|]; [|done]. intros Hf. exists q. split; [done|].
    repeat (destruct (Qeq_bool _ q) eqn:Hq in Hf;
      [injection Hf as <-; apply Qeq_bool_iff in Hq;
       split; [repeat constructor | by rewrite <- Hq]|clear Hq]).
    discriminate.
  - intros (q & -> & Hin & Hq).
    assert (∀ c : Q, (c * inject_Z f == 28)%Q → (q == c)%Q) as Hval.
    { intros c Hc. rewrite <- Hc in Hq. apply Qmult_inj_r in Hq; [done|].
      intros H0. rewrite H0, Qmult_0_r in Hc. discriminate Hc. }
    apply elem_of_cons in Hin as [-> | Hin].
    { rewrite !(Qeq_bool_congr 28 _ q (Hval 28%Q eq_refl)). reflexivity. }
    apply elem_of_cons in Hin as [-> | Hin].
    { rewrite !(Qeq_bool_congr 14 _ q (Hval 14%Q eq_refl)). reflexivity. }
    apply elem_of_cons in Hin as [-> | Hin].
    { rewrite !(Qeq_bool_congr 7 _ q (Hval 7%Q eq_refl)). reflexivity. }
    apply elem_of_cons in Hin as [-> | Hin].
    { rewrite !(Qeq_bool_congr (7 # 2) _ q (Hval (7 # 2)%Q eq_refl)). reflexivity. }
    apply elem_of_cons in Hin as [-> | Hin].
    { rewrite !(Qeq_bool_congr (7 # 4) _ q (Hval (7 # 4)%Q eq_refl)). reflexivity. }
    by apply elem_of_nil in Hin.
Qed.

Lemma reduce_factor_lookup_witness :
  dict_get PARAMS2REDUCE_FACTOR (PyFloat (FFinite 7)) = Some 4
  ∧ dict_get PARAMS2REDUCE_FACTOR (PyInt 7) = Some 4
  ∧ dict_get PARAMS2REDUCE_FACTOR (PyFloat FNaN) = None.
Proof.
  split_and!.
  - apply reduce_factor_lookup. exists 7%Q. split_and!; [reflexivity | | reflexivity].
    do 2 apply list_elem_of_further. apply list_elem_of_here.
  - apply reduce_factor_lookup. exists 7%Q. split_and!; [reflexivity | | reflexivity].
    do 2 apply list_elem_of_further. apply list_elem_of_here.
  - destruct (dict_get PARAMS2REDUCE_FACTOR (PyFloat FNaN)) as [f|] eqn:Hf; [|reflexivity].
    apply reduce_factor_lookup in Hf as (q & [=] & _).
Defined.

(** ** Runs that raise *)

(** X7. Whatever the libraries answer, [get_model_and_auxiliaries] makes
    its calls in one order: the registrations, then feature extractor,
    tokenizer and model. A run that raises stops there, so its calls are
    a prefix of that sequence; a run that returns has made them all and
    then printed its report. *)
Theorem loading_calls_in_order (L : Library.t) (args : Args.t) :
  match outcome (get_model_and_auxiliaries L args) with
  | Raise _ => trace (get_model_and_auxiliaries L args) `prefix_of` loading_calls args
  | Ok _ =>
      ∃ message,
        trace (get_model_and_auxiliaries L args)
        = (loading_calls args ++ [print message])%list
  end.
Proof.
  destruct (get_model_and_auxiliaries L args) as [tr [[[m tok] fe]|e]] eqn:Hrun;
    unfold outcome, trace; cbn [fst snd].
  - apply get_model_and_auxiliaries_inv in Hrun
      as (factor & tok0 & m0 & _ & Hf & _ & _ & _ & _ & _ & ->).
    unfold loading_calls, loading_trace. rewrite Hf. eexists.
    rewrite <- app_assoc. reflexivity.
  - revert Hrun.
    unfold get_model_and_auxiliaries, loading_calls, registrations, family_of,
      getitem, bind, call, lift, ret.
    destruct (dict_get _ _) as [factor|];
      (destruct (contains "xglm" _); [|destruct (contains "opt" _)]);
      repeat (next_answer; simpl);
      intros [= <- <-]; eexists; reflexivity.
Qed.

(** X8. With an attention size that is not supported, [main] does nothing
    but register classes, whatever the libraries answer: no pretrained
    component is loaded, no data is read, nothing is trained, and [main]
    raises. *)
Theorem unsupported_size_only_registers (L : Library.t) (args : Args.t) :
  ¬ listed_size (Args.attention_size args) →
  Forall (fun e => is_registration e = true) (trace (main L args))
  ∧ ∃ e, outcome (main L args) = Raise e.
Proof.
  intros Hno%dict_get_unlisted.
  assert (∃ tr e, get_model_and_auxiliaries L args = (tr, Raise e)
                  ∧ Forall (fun e => is_registration e = true) tr)
    as (tr & e & Hgm & Hreg).
  { unfold get_model_and_auxiliaries, getitem, bind, call, lift, ret.
    rewrite Hno.
    (destruct (contains "xglm" _); [|destruct (contains "opt" _)]);
      repeat match goal with
             | |- context [match ?r with Ok _ => _ | Raise _ => _ end] =>
                 destruct r as [?|?]
             end;
      simpl; do 2 eexists; (split; [reflexivity|]); repeat constructor. }
  rewrite (main_raise_loading L args tr e Hgm). split; [done | by exists e].
Qed.

Lemma unsupported_size_only_registers_witness :
  trace (main gpt2_library args_unsupported) = registrations "gpt2"
  ∧ ∃ e, outcome (main gpt2_library args_unsupported) = Raise e.
Proof.
  split; [reflexivity|].
  apply (unsupported_size_only_registers gpt2_library args_unsupported).
  intros (q & [= <-] & Hin). unfold ATTENTION_SIZES in Hin.
  rewrite !Exists_cons, Exists_nil in Hin.
  destruct Hin as [H|[H|[H|[H|[H|[]]]]]]; discriminate H.
Defined.

(** X9. When the annotation data has no ['train'] split, [get_data]
    raises [KeyError('train')] right after loading it and builds no
    dataset; [main] then raises the same and trains nothing. *)
Theorem missing_train_split (L : Library.t) (args : Args.t)
    (tr1 : list event) (m : Model.t) (tok : Tokenizer.t) (fe : FeatureExtractor)
    (data : list (string * list Row)) :
  get_model_and_auxiliaries L args = (tr1, Ok (m, tok, fe)) →
  Library.load_data L (Args.annotations_path args) (Args.captions_path args) = Ok data →
  dict_get_str data "train" = None →
  (∀ tokenizer max_length,
     get_data L tokenizer max_length args
     = ([ load_data_for_training (Args.annotations_path args) (Args.captions_path args) ],
        Raise (KeyError (KStr "train"))))
  ∧ main L args
    = ((tr1 ++ [ load_data_for_training (Args.annotations_path args)
                   (Args.captions_path args) ])%list,
       Raise (KeyError (KStr "train"))).
Proof.
  intros Hgm Hdata Hrows.
  assert (∀ tokenizer max_length,
     get_data L tokenizer max_length args
     = ([ load_data_for_training (Args.annotations_path args) (Args.captions_path args) ],
        Raise (KeyError (KStr "train")))) as Hgd.
  { intros tokenizer max_length. unfold get_data, getitem_str, bind, call, lift.
    by rewrite Hdata, Hrows. }
  split; [done|].
  apply (main_raise_data L args tr1 _ m tok fe _ Hgm (Hgd _ _)).
Qed.

Lemma missing_train_split_witness :
  main (with_data (Ok [("val", ["row 3"])]) gpt2_library) Args.default
  = ((loading_trace Args.default 4
        (prepared_model Args.default gpt2_tokenizer gpt2_model)
      ++ [ load_data_for_training "/kaggle/input/karpathy-splits/dataset_coco.json"
             "/kaggle/working/retrieved_caps_resnet50x64.json" ])%list,
     Raise (KeyError (KStr "train"))).
Proof.
  apply (missing_train_split (with_data (Ok [("val", ["row 3"])]) gpt2_library)
           Args.default _ _ _ _ [("val", ["row 3"])] eq_refl eq_refl eq_refl).
Defined.

(** ** Training *)

Lemma main_training_event (L : Library.t) (args : Args.t) (e : event) :
  e ∈ trace (main L args) → is_training_call e = true →
  ∃ tr1 tr2 m tok fe d,
    get_model_and_auxiliaries L args = (tr1, Ok (m, tok, fe))
    ∧ get_data L tok (Config.max_length (Model.config m)) args = (tr2, Ok d)
    ∧ e ∈ trace (start_training L (trainer_of L args m d fe)).
Proof.
  intros Hin He.
  assert (∀ l, Forall (fun e => is_training_call e = false) l → e ∉ l) as Hnot.
  { intros l Hl Hel. apply (proj1 (Forall_forall _ _) Hl) in Hel. congruence. }
  pose proof (get_model_and_auxiliaries_calls L args) as H1.
  destruct (get_model_and_auxiliaries L args) as [tr1 [[[m tok] fe]|e']] eqn:Hgm.
  2: { rewrite (main_raise_loading L args tr1 e' Hgm) in Hin. by destruct (Hnot _ H1). }
  pose proof (get_data_calls L tok (Config.max_length (Model.config m)) args) as H2.
  destruct (get_data L tok _ args) as [tr2 [d|e']] eqn:Hgd.
  2: { rewrite (main_raise_data L args tr1 tr2 m tok fe e' Hgm Hgd) in Hin.
       simpl in *. apply elem_of_app in Hin as [Hin|Hin];
         [by destruct (Hnot _ H1) | by destruct (Hnot _ H2)]. }
  rewrite (main_run L args tr1 tr2 m tok fe d Hgm Hgd) in Hin. simpl in *.
  apply elem_of_app in Hin as [Hin|Hin]; [by destruct (Hnot _ H1)|].
  apply elem_of_app in Hin as [Hin|Hin]; [by destruct (Hnot _ H2)|].
  exists tr1, tr2, m, tok, fe, d. done.
Qed.

Lemma start_training_calls (L : Library.t) (t t' : Trainer.t) :
  (Seq2SeqTrainer t' ∈ trace (start_training L t)
   ↔ t' = t ∧ Library.training_arguments_init L (Trainer.args t) = Ok tt)
  ∧ (Trainer_train t' ∈ trace (start_training L t)
     ↔ t' = t ∧ Library.training_arguments_init L (Trainer.args t) = Ok tt
       ∧ Library.trainer_init L t = Ok tt).
Proof.
  unfold start_training, bind, call, trace.
  destruct (Library.training_arguments_init L _) as [[]|];
    [destruct (Library.trainer_init L t) as [[]|];
       [destruct (Library.train L t) as [[]|]|]|];
    simpl; rewrite ?elem_of_cons, ?elem_of_nil; intuition congruence.
Qed.

(** X10. [trainer.train()] is called exactly when everything before it
    succeeded: the components were loaded, the dataset was built, and the
    training arguments and the trainer were constructed; it is called on
    the trainer built from these. *)
Theorem train_called_iff (L : Library.t) (args : Args.t) (t : Trainer.t) :
  Trainer_train t ∈ trace (main L args)
  ↔ ∃ tr1 tr2 m tok fe d,
      get_model_and_auxiliaries L args = (tr1, Ok (m, tok, fe))
      ∧ get_data L tok (Config.max_length (Model.config m)) args = (tr2, Ok d)
      ∧ Library.training_arguments_init L (training_arguments L args) = Ok tt
      ∧ t = trainer_of L args m d fe
      ∧ Library.trainer_init L t = Ok tt.
Proof.
  split.
  - intros Hin. apply main_training_event in Hin
      as (tr1 & tr2 & m & tok & fe & d & Hgm & Hgd & Hin); [|done].
    apply start_training_calls in Hin as (-> & Hta & Htr).
    exists tr1, tr2, m, tok, fe, d. done.
  - intros (tr1 & tr2 & m & tok & fe & d & Hgm & Hgd & Hta & -> & Htr).
    rewrite (main_run L args tr1 tr2 m tok fe d Hgm Hgd). simpl.
    rewrite !elem_of_app. do 2 right. by apply start_training_calls.
Qed.

Lemma train_called_iff_witness :
  Trainer_train
    (trainer_of gpt2_library Args.default
       (prepared_model Args.default gpt2_tokenizer gpt2_model)
       (training_dataset Args.default (prepared_tokenizer gpt2_tokenizer) 25
          ["row 1"; "row 2"])
       (FeatureExtractorRef 1))
    ∈ trace (main gpt2_library Args.default)
  ∧ ¬ (∃ t, Trainer_train t
            ∈ trace (main (with_trainer_init (Raise (LibraryError "no GPU")) gpt2_library)
                       Args.default)).
Proof.
  split.
  - apply (train_called_iff gpt2_library Args.default).
    do 6 eexists. split_and!; reflexivity.
  - intros [t Hin].
    apply (train_called_iff (with_trainer_init (Raise (LibraryError "no GPU")) gpt2_library)
             Args.default) in Hin as (? & ? & ? & ? & ? & ? & _ & _ & _ & _ & Hinit).
    discriminate Hinit.
Defined.

(** X11. The model and the dataset a trainer is built on agree: the
    dataset is built with the model's [rag] flag, with its [max_length]
    (25) as maximal caption length, with its [k] when RAG is on, and with a
    tokenizer whose pad and eos ids are those of the model's
    configuration; and the encoder of that model is frozen. *)
Theorem trainer_consistent (L : Library.t) (args : Args.t) (t : Trainer.t) :
  Seq2SeqTrainer t ∈ trace (main L args) →
  Config.rag (Model.config (Trainer.model t))
  = DatasetArgs.rag (dataset_args (Trainer.train_dataset t))
  ∧ Config.max_length (Model.config (Trainer.model t))
    = DatasetArgs.max_caption_length (dataset_args (Trainer.train_dataset t))
  ∧ DatasetArgs.max_caption_length (dataset_args (Trainer.train_dataset t)) = 25
  ∧ (Config.rag (Model.config (Trainer.model t)) = true →
     Config.k (Model.config (Trainer.model t))
     = Some (DatasetArgs.k (dataset_args (Trainer.train_dataset t))))
  ∧ Config.pad_token_id (Model.config (Trainer.model t))
    = Tokenizer.pad_token_id (DatasetArgs.tokenizer (dataset_args (Trainer.train_dataset t)))
  ∧ Config.eos_token_id (Model.config (Trainer.model t))
    = Tokenizer.eos_token_id (DatasetArgs.tokenizer (dataset_args (Trainer.train_dataset t)))
  ∧ ∀ i p, i ∈ Model.encoder_parameters (Trainer.model t) →
           Model.parameters (Trainer.model t) !! i = Some p →
           Param.requires_grad p = false.
Proof.
  intros Hin. apply main_training_event in Hin
    as (tr1 & tr2 & m & tok & fe & d & Hgm & Hgd & Hin); [|done].
  apply start_training_calls in Hin as (-> & _).
  apply get_model_and_auxiliaries_inv in Hgm
    as (factor & tok0 & m0 & _ & _ & _ & _ & _ & -> & -> & _).
  apply get_data_inv in Hgd as (data & rows & _ & _ & _ & -> & _).
  unfold training_dataset. simpl.
  split_and!; try (by destruct (Args.ablation_visual args)).
  - destruct (Args.ablation_visual args); simpl;
      destruct (Args.disable_rag args); simpl; done.
  - intros i p Hi Hp. rewrite prepared_parameters_lookup in Hp.
    apply reached_elem in Hi. rewrite Hi in Hp. simpl in Hp.
    destruct (Model.parameters m0 !! i); by simplify_eq/=.
Qed.

Lemma trainer_consistent_witness :
  Config.rag (prepared_config Args.default gpt2_tokenizer gpt2_config) = true
  ∧ Config.k (prepared_config Args.default gpt2_tokenizer gpt2_config) = Some 4
  ∧ Config.max_length (prepared_config Args.default gpt2_tokenizer gpt2_config) = 25.
Proof.
  assert (Seq2SeqTrainer
            (trainer_of gpt2_library Args.default
               (prepared_model Args.default gpt2_tokenizer gpt2_model)
               (training_dataset Args.default (prepared_tokenizer gpt2_tokenizer) 25
                  ["row 1"; "row 2"])
               (FeatureExtractorRef 1))
          ∈ trace (main gpt2_library Args.default)) as Hin.
  { do 12 apply list_elem_of_further. apply list_elem_of_here. }
  destruct (trainer_consistent gpt2_library Args.default _ Hin)
    as (_ & Hlen & H25 & Hk & _).
  split_and!; [reflexivity | exact (Hk eq_refl) | exact (eq_trans Hlen H25)].
Defined.

(** ** What the functions read *)

(** X12. [get_model_and_auxiliaries] reads the encoder and decoder names,
    the attention size, [train_decoder], [disable_rag] and, with RAG on,
    [k] and [retrieval_encoder]: two command lines that agree on these
    give the same calls and the same result, whatever their paths, epochs,
    batch size, learning rate and ablation flag. *)
Theorem loading_reads_only (L : Library.t) (a b : Args.t) :
  same_loading_options a b →
  get_model_and_auxiliaries L a = get_model_and_auxiliaries L b.
Proof.
  intros (He & Hd & Ha & Ht & Hr & Hk).
  unfold get_model_and_auxiliaries. rewrite He, Hd, Ha, Ht, Hr.
  rewrite Hr in Hk. destruct (Args.disable_rag b).
  - reflexivity.
  - destruct (Hk eq_refl) as [-> ->]. reflexivity.
Qed.

Lemma loading_reads_only_witness :
  get_model_and_auxiliaries gpt2_library Args.default
  = get_model_and_auxiliaries gpt2_library args_long_run.
Proof.
  apply (loading_reads_only gpt2_library Args.default args_long_run).
  repeat split.
Defined.

(** ** Where an exception comes from *)

Lemma loading_exception (L : Library.t) (args : Args.t) (tr : list event) (e : exn) :
  get_model_and_auxiliaries L args = (tr, Raise e) →
  (e = KeyError (KNum (Args.attention_size args))
   ∧ dict_get PARAMS2REDUCE_FACTOR (Args.attention_size args) = None)
  ∨ ∃ ev, last tr = Some ev ∧ raised_by L ev = Some e.
Proof.
  unfold get_model_and_auxiliaries, getitem, bind, call, lift, ret.
  destruct (dict_get _ _) as [factor|] eqn:Hf;
    (destruct (contains "xglm" _); [|destruct (contains "opt" _)]);
    repeat (next_answer; simpl);
    intros [= <- <-]; first [left; done | blame_last_call].
Qed.

Lemma data_exception (L : Library.t) (tok : Tokenizer.t) (max_length : Z)
    (args : Args.t) (tr : list event) (e : exn) :
  get_data L tok max_length args = (tr, Raise e) →
  e = KeyError (KStr "train")
  ∨ ∃ ev, last tr = Some ev ∧ raised_by L ev = Some e.
Proof.
  unfold get_data, getitem_str, bind, call, lift, ret.
  next_answer; [|intros [= <- <-]; blame_last_call].
  destruct (dict_get_str _ "train") as [rows|]; [|intros [= <- <-]; by left].
  destruct (Args.ablation_visual args); next_answer; simpl;
    intros [= <- <-]; blame_last_call.
Qed.

Lemma training_exception (L : Library.t) (t : Trainer.t) (tr : list event) (e : exn) :
  start_training L t = (tr, Raise e) →
  ∃ ev, last tr = Some ev ∧ raised_by L ev = Some e.
Proof.
  unfold start_training, bind, call.
  destruct (Library.training_arguments_init L _) as [[]|e1] eqn:H1.
  2: { intros [= <- <-]. eexists. split; [reflexivity|]. simpl. by rewrite H1. }
  destruct (Library.trainer_init L t) as [[]|e2] eqn:H2.
  2: { intros [= <- <-]. eexists. split; [reflexivity|]. simpl. by rewrite H2. }
  intros [= <- H3]. eexists. split; [reflexivity|]. simpl. by rewrite H3.
Qed.

Lemma last_app_Some_r {A} (l1 l2 : list A) (x : A) :
  last l2 = Some x → last (l1 ++ l2) = Some x.
Proof. intros H. by rewrite last_app, H. Qed.

(** X13. [main] handles no exception: when it raises, either the
    exception is the [KeyError] of an unsupported attention size or of a
    missing ['train'] split, or it is what the library answered to the
    last call [main] made. *)
Theorem exception_origin (L : Library.t) (args : Args.t) (e : exn) :
  outcome (main L args) = Raise e →
  (e = KeyError (KNum (Args.attention_size args))
   ∧ dict_get PARAMS2REDUCE_FACTOR (Args.attention_size args) = None)
  ∨ e = KeyError (KStr "train")
  ∨ ∃ ev, last (trace (main L args)) = Some ev ∧ raised_by L ev = Some e.
Proof.
  destruct (get_model_and_auxiliaries L args) as [tr1 [[[m tok] fe]|e1]] eqn:Hgm.
  2: { rewrite (main_raise_loading L args tr1 e1 Hgm). simpl. intros [= ->].
       apply loading_exception in Hgm as [Hkey | Hev]; auto. }
  destruct (get_data L tok (Config.max_length (Model.config m)) args)
    as [tr2 [d|e2]] eqn:Hgd.
  2: { rewrite (main_raise_data L args tr1 tr2 m tok fe e2 Hgm Hgd). simpl.
       intros [= ->]. apply data_exception in Hgd as [-> | (ev & Hlast & Hev)]; auto.
       do 2 right. exists ev. split; [by apply last_app_Some_r | done]. }
  rewrite (main_run L args tr1 tr2 m tok fe d Hgm Hgd).
  destruct (start_training L _) as [tr3 r] eqn:Hst. simpl. intros ->.
  apply training_exception in Hst as (ev & Hlast & Hev).
  do 2 right. exists ev. split; [|done].
  by do 2 apply last_app_Some_r.
Qed.

Lemma exception_origin_witness :
  main (with_trainer_init (Raise (LibraryError "no GPU")) gpt2_library) Args.default
  = (trace (main (with_trainer_init (Raise (LibraryError "no GPU")) gpt2_library)
              Args.default),
     Raise (LibraryError "no GPU"))
  ∧ ∃ ev, last (trace (main (with_trainer_init (Raise (LibraryError "no GPU")) gpt2_library)
                         Args.default)) = Some ev
          ∧ raised_by (with_trainer_init (Raise (LibraryError "no GPU")) gpt2_library) ev
            = Some (LibraryError "no GPU").
Proof.
  split; [reflexivity|].
  destruct (exception_origin
              (with_trainer_init (Raise (LibraryError "no GPU")) gpt2_library)
              Args.default (LibraryError "no GPU") eq_refl)
    as [[[=] _] | [[=] | Hev]].
  exact Hev.
Defined.

(** ** The order in which parameters are yielded *)

Lemma reached_ext (ids ids' : list nat) (i : nat) :
  (∀ j, j ∈ ids ↔ j ∈ ids') → reached ids i = reached ids' i.
Proof. intros H. apply eq_true_iff_eq. by rewrite !reached_elem. Qed.

Lemma reached_unless_ext (marker : string) (named named' : list (string * nat)) (i : nat) :
  (∀ x, x ∈ named ↔ x ∈ named') →
  reached_unless marker named i = reached_unless marker named' i.
Proof.
  intros H. apply eq_true_iff_eq. rewrite !reached_unless_elem.
  split; intros (name & Hin & Hm); exists name; (split; [by apply H | done]).
Qed.

(** X14. The two freezing loops depend only on which tensors are
    yielded, and under which names, not on the order of the iteration nor
    on a tensor being yielded more than once: two loaded models with the
    same tensors, the same encoder tensors and the same named decoder
    tensors are returned with the same flags. *)
Theorem yield_order_irrelevant (L L' : Library.t) (args : Args.t)
    (tr tr' : list event) (m m' : Model.t) (tok tok' : Tokenizer.t)
    (fe fe' : FeatureExtractor) (factor : Z) (m0 m0' : Model.t) :
  get_model_and_auxiliaries L args = (tr, Ok (m, tok, fe)) →
  get_model_and_auxiliaries L' args = (tr', Ok (m', tok', fe')) →
  dict_get PARAMS2REDUCE_FACTOR (Args.attention_size args) = Some factor →
  Library.from_encoder_decoder_pretrained L
    (Args.encoder_name args) (Args.decoder_name args) factor = Ok m0 →
  Library.from_encoder_decoder_pretrained L'
    (Args.encoder_name args) (Args.decoder_name args) factor = Ok m0' →
  Model.parameters m0 = Model.parameters m0' →
  (∀ i, i ∈ Model.encoder_parameters m0 ↔ i ∈ Model.encoder_parameters m0') →
  (∀ x, x ∈ Model.decoder_named_parameters m0 ↔ x ∈ Model.decoder_named_parameters m0') →
  Model.parameters m = Model.parameters m'.
Proof.
  intros Hrun Hrun' Hf Hm0 Hm0' Hps Henc Hdec.
  apply get_model_and_auxiliaries_inv in Hrun
    as (f1 & tok1 & m1 & _ & Hf1 & _ & _ & Hm1 & -> & _ & _).
  apply get_model_and_auxiliaries_inv in Hrun'
    as (f2 & tok2 & m2 & _ & Hf2 & _ & _ & Hm2 & -> & _ & _).
  assert (f1 = factor) as -> by congruence.
  assert (f2 = factor) as -> by congruence.
  assert (m1 = m0) as -> by congruence.
  assert (m2 = m0') as -> by congruence.
  simpl. apply list_eq. intros i. rewrite !prepared_parameters_lookup.
  by rewrite Hps, (reached_ext _ _ i Henc), (reached_unless_ext _ _ _ i Hdec).
Qed.

Lemma yield_order_irrelevant_witness :
  Model.parameters (prepared_model Args.default gpt2_tokenizer gpt2_model)
  = Model.parameters (prepared_model Args.default gpt2_tokenizer gpt2_model_reordered).
Proof.
  apply (yield_order_irrelevant gpt2_library (with_model gpt2_model_reordered gpt2_library)
           Args.default _ _ _ _ _ _ _ _ 4 gpt2_model gpt2_model_reordered
           eq_refl eq_refl eq_refl eq_refl eq_refl eq_refl).
  - intros i. simpl. rewrite !elem_of_cons, !elem_of_nil. tauto.
  - intros x. simpl. rewrite !elem_of_cons, !elem_of_nil. tauto.
Defined.
